(** * flake8: checker manager, file checker and style guide

    A shallow embedding of [flake8/checker.py] and [flake8/style_guide.py].
    Python objects are records, exceptions are values of an error monad,
    dictionaries are [gmap]s, and the collaborators that live in other
    modules of the package ([flake8.processor], [flake8.utils], the
    [multiprocessing] and [linecache] standard modules) are records of the
    operations the two files call on them.

    A [str] is a sequence of code points; the embedding keeps the code
    points below 256 ([string] of [ascii], the character of code [n] being
    [ascii_of_nat n]), ordered by code point as Python orders [str]
    values.  The character classes of [str.isdigit], [str.strip] and [int]
    are those of Python 3 on these code points. *)

From Stdlib Require Import ZArith Ascii String List Lia.
From Stdlib Require Import Sorting.Sorted Sorting.Permutation.
From stdpp Require Import gmap strings list fin_maps.

Set Warnings "-register-all".
Local Open Scope Z_scope.

(** ** Python values, exceptions, and the monad of raising computations *)

Module Py.

(** The dynamically typed values that appear in exception arguments. *)
Inductive pyval : Type :=
  | PNone
  | PInt (z : Z)
  | PStr (s : string)
  | PTuple (items : list pyval).

(** Exception classes: the builtin ones named in the source,
    [flake8.exceptions.InvalidSyntax] (whose [error_code], [line_number],
    [column_number] and [error_message] are its four arguments), and
    subclasses ([IndentationError] under [SyntaxError], [FileNotFoundError]
    under [IOError], ...). *)
Inductive exc_class : Type :=
  | IOError
  | ValueError
  | SyntaxError
  | TypeError
  | AttributeError
  | IndexError
  | UnboundLocalError
  | NotImplementedError
  | InvalidSyntax
  | Subclass (name : string) (base : exc_class).

Definition class_name (c : exc_class) : string :=
  match c with
  | IOError => "IOError"
  | ValueError => "ValueError"
  | SyntaxError => "SyntaxError"
  | TypeError => "TypeError"
  | AttributeError => "AttributeError"
  | IndexError => "IndexError"
  | UnboundLocalError => "UnboundLocalError"
  | NotImplementedError => "NotImplementedError"
  | InvalidSyntax => "InvalidSyntax"
  | Subclass name _ => name
  end.

Definition exc_class_eqb (a b : exc_class) : bool :=
  match a, b with
  | IOError, IOError | ValueError, ValueError | SyntaxError, SyntaxError
  | TypeError, TypeError | AttributeError, AttributeError
  | IndexError, IndexError | UnboundLocalError, UnboundLocalError
  | NotImplementedError, NotImplementedError
  | InvalidSyntax, InvalidSyntax => true
  | _, _ => false
  end.

(** [issubclass c target] for a builtin [target]. *)
Fixpoint issubclass (c target : exc_class) : bool :=
  exc_class_eqb c target ||
  match c with
  | Subclass _ base => issubclass base target
  | _ => false
  end.

Record exception : Type := Exception {
  exc_type : exc_class;
  args : list pyval;
}.

(** A computation either raises or returns. *)
Definition result (A : Type) : Type := exception + A.

Definition ret {A} (a : A) : result A := inr a.
Definition raise {A} (e : exception) : result A := inl e.

Definition bind {A B} (m : result A) (k : A -> result B) : result B :=
  match m with
  | inl e => inl e
  | inr a => k a
  end.

Definition raises {A} (m : result A) (c : exc_class) : Prop :=
  match m with
  | inl e => exc_type e = c
  | inr _ => False
  end.

(** [seq[i]] for a non-negative literal index. *)
Definition getitem (items : list pyval) (i : nat) : result pyval :=
  match items !! i with
  | Some v => ret v
  | None => raise (Exception IndexError [PStr "index out of range"])
  end.

(** [len(v)]: defined on sequences only. *)
Definition len (v : pyval) : result nat :=
  match v with
  | PTuple items => ret (length items)
  | PStr s => ret (String.length s)
  | _ => raise (Exception TypeError [PStr "object has no len()"])
  end.

(** [v[i]] on a value. *)
Definition index (v : pyval) (i : nat) : result pyval :=
  match v with
  | PTuple items => getitem items i
  | PStr s =>
      match String.get i s with
      | Some c => ret (PStr (String c EmptyString))
      | None => raise (Exception IndexError [PStr "string index out of range"])
      end
  | _ => raise (Exception TypeError [PStr "object is not subscriptable"])
  end.

(** [v[a:b]] for literal bounds [0 <= a <= b]; slices never raise on
    sequences. *)
Definition slice (v : pyval) (a b : nat) : result pyval :=
  match v with
  | PTuple items => ret (PTuple (take (b - a) (drop a items)))
  | PStr s => ret (PStr (String.substring a (b - a) s))
  | _ => raise (Exception TypeError [PStr "object is not subscriptable"])
  end.

(** [str.startswith] with one prefix and with a tuple of prefixes. *)
Definition startswith (s p : string) : bool := String.prefix p s.

Definition startswith_any (s : string) (ps : list string) : bool :=
  existsb (startswith s) ps.

(** [sorted(xs, key=key)]: the stable sort; [lt] is [<] on keys.  An
    element is placed after every element already there whose key is
    smaller, and before the first one whose key is not. *)
Section Sorted.
Context {A K : Type} (lt : K -> K -> bool) (key : A -> K).

Fixpoint insert_sorted (x : A) (l : list A) : list A :=
  match l with
  | [] => [x]
  | y :: l' =>
      if lt (key y) (key x) then y :: insert_sorted x l'
      else x :: y :: l'
  end.

Definition sorted (l : list A) : list A := foldr insert_sorted [] l.
End Sorted.

(** [<] on pairs, as Python compares tuples: the first components decide
    unless they are equal. *)
Definition pair_ltb {A B} `{EqDecision A}
    (ltA : A -> A -> bool) (ltB : B -> B -> bool) (x y : A * B) : bool :=
  if bool_decide (x.1 = y.1) then ltB x.2 y.2 else ltA x.1 y.1.

End Py.

Import Py.

Notation "'do' x <- m ; k" := (bind m (fun x => k))
  (at level 10, x name, m at level 100, k at level 200).

(** ** flake8/style_guide.py *)

Module style_guide.

(** The [Selected] and [Ignored] enumerations; [is_user_selected] and
    [is_user_ignored] return a member of either. *)
Inductive Selection : Type :=
  | Selected_Explicitly
  | Selected_Implicitly
  | Ignored_Explicitly
  | Ignored_Implicitly.

Inductive Decision : Type :=
  | Decision_Ignored
  | Decision_Selected.

#[global] Instance Selection_eq_dec : EqDecision Selection.
Proof. solve_decision. Defined.
#[global] Instance Decision_eq_dec : EqDecision Decision.
Proof. solve_decision. Defined.

(** The [Error] named tuple. *)
Record Error : Type := mkError {
  code : string;
  filename : option string;
  line_number : Z;
  column_number : Z;
  text : string;
  physical_line : option string;
}.

(** The attributes of the parsed options that the two files read. *)
Record Options : Type := mkOptions {
  select : list string;
  ignore : list string;
  disable_noqa : bool;
  stdin_display_name : option string;
  diff : bool;
  jobs : string;
}.

(** [flake8.utils], as far as the two files call it. *)
Record Utils : Type := mkUtils {
  parse_comma_separated_list : string -> list string;
  is_windows : bool;
  is_using_stdin : list string -> bool;
}.

Record StyleGuide : Type := mkStyleGuide {
  options : Options;
  _selected : list string;
  _ignored : list string;
  _decision_cache : gmap string (option Decision);
  _parsed_diff : gmap string (gset Z);
}.

Definition __init__ (options : Options) : StyleGuide :=
  {| options := options;
     _selected := select options;
     _ignored := ignore options;
     _decision_cache := ∅;
     _parsed_diff := ∅ |}.

(** *** The inline [# noqa] pattern

    [NOQA_INLINE_REGEXP] is
    ['# noqa(?:: )?(?P<codes>[A-Z0-9,]+)?$'] compiled with [re.IGNORECASE].
    The matcher below follows the backtracking order of [re]: optional
    parts are tried present first, the repetition longest first. *)

Definition newline : ascii := ascii_of_nat 10.

Definition is_upper (c : ascii) : bool :=
  (65 <=? nat_of_ascii c)%nat && (nat_of_ascii c <=? 90)%nat.
Definition is_lower (c : ascii) : bool :=
  (97 <=? nat_of_ascii c)%nat && (nat_of_ascii c <=? 122)%nat.
Definition is_digit (c : ascii) : bool :=
  (48 <=? nat_of_ascii c)%nat && (nat_of_ascii c <=? 57)%nat.

Definition lower (c : ascii) : ascii :=
  if is_upper c then ascii_of_nat (nat_of_ascii c + 32) else c.

(** A literal, compared without regard to case; the rest of the subject
    when it matches. *)
Fixpoint match_literal (lit subject : string) : option string :=
  match lit, subject with
  | EmptyString, _ => Some subject
  | String a lit', String c subject' =>
      if Ascii.eqb (lower a) (lower c) then match_literal lit' subject'
      else None
  | String _ _, EmptyString => None
  end.

(** [[A-Z0-9,]] under [IGNORECASE]. *)
Definition in_codes_class (c : ascii) : bool :=
  is_upper c || is_lower c || is_digit c || Ascii.eqb c ","%char.

(** [$]: the end of the string, or just before a newline that ends it. *)
Definition at_dollar (subject : string) : bool :=
  match subject with
  | EmptyString => true
  | String c EmptyString => Ascii.eqb c newline
  | _ => false
  end.

(** [[A-Z0-9,]+$]: the text of the repetition. *)
Fixpoint match_codes_dollar (subject : string) : option string :=
  match subject with
  | EmptyString => None
  | String c subject' =>
      if in_codes_class c then
        match match_codes_dollar subject' with
        | Some run => Some (String c run)
        | None => if at_dollar subject' then Some (String c EmptyString) else None
        end
      else None
  end.

(** [(?P<codes>[A-Z0-9,]+)?$]: the group, [None] when it took no part. *)
Definition match_group_dollar (subject : string) : option (option string) :=
  match match_codes_dollar subject with
  | Some run => Some (Some run)
  | None => if at_dollar subject then Some None else None
  end.

(** The whole pattern, anchored at the start of [subject]. *)
Definition match_here (subject : string) : option (option string) :=
  match match_literal "# noqa" subject with
  | None => None
  | Some rest =>
      let with_colon :=
        match match_literal ": " rest with
        | Some rest' => match_group_dollar rest'
        | None => None
        end in
      match with_colon with
      | Some m => Some m
      | None => match_group_dollar rest
      end
  end.

(** [NOQA_INLINE_REGEXP.search(subject)]: the leftmost match; the value is
    [groupdict()['codes']]. *)
Fixpoint NOQA_INLINE_REGEXP_search (subject : string) : option (option string) :=
  match match_here subject with
  | Some m => Some m
  | None =>
      match subject with
      | EmptyString => None
      | String _ subject' => NOQA_INLINE_REGEXP_search subject'
      end
  end.

(** *** Methods of [StyleGuide] *)

Definition is_user_selected (self : StyleGuide) (code : string) : Selection :=
  if bool_decide (_selected self = []) then Selected_Implicitly
  else if startswith_any code (_selected self) then Selected_Explicitly
  else Ignored_Implicitly.

Definition is_user_ignored (self : StyleGuide) (code : string) : Selection :=
  if negb (bool_decide (_ignored self = [])) && startswith_any code (_ignored self)
  then Ignored_Explicitly
  else Selected_Implicitly.

(** [sorted(...)[0]] *)
Definition first_sorted (l : list string) : result string :=
  match sorted String.ltb id l with
  | x :: _ => ret x
  | [] => raise (Exception IndexError [PStr "list index out of range"])
  end.

Definition _decision_for (self : StyleGuide) (code : string) : result Decision :=
  do selected <- first_sorted (filter (fun s => startswith code s = true) (_selected self));
  do ignored <- first_sorted (filter (fun i => startswith code i = true) (_ignored self));
  if startswith selected ignored then ret Decision_Selected
  else ret Decision_Ignored.

(** [dict.get(code)]: [None] for a missing key. *)
Definition cache_get (cache : gmap string (option Decision)) (code : string)
    : option Decision :=
  match cache !! code with
  | Some d => d
  | None => None
  end.

Definition set_decision_cache (self : StyleGuide)
    (cache : gmap string (option Decision)) : StyleGuide :=
  {| options := options self;
     _selected := _selected self;
     _ignored := _ignored self;
     _decision_cache := cache;
     _parsed_diff := _parsed_diff self |}.

Definition should_report_error (self : StyleGuide) (code : string)
    : result (option Decision * StyleGuide) :=
  match cache_get (_decision_cache self) code with
  | Some decision => ret (Some decision, self)
  | None =>
      let selected := is_user_selected self code in
      let ignored := is_user_ignored self code in
      do decision <-
        (if (bool_decide (selected = Selected_Explicitly) ||
             bool_decide (selected = Selected_Implicitly)) &&
            bool_decide (ignored = Selected_Implicitly)
         then ret (Some Decision_Selected)
         else if bool_decide (selected = Selected_Explicitly) &&
                 bool_decide (ignored = Ignored_Explicitly)
         then do d <- _decision_for self code; ret (Some d)
         else if bool_decide (selected = Ignored_Implicitly) ||
                 bool_decide (ignored = Ignored_Explicitly)
         then ret (Some Decision_Ignored)
         else ret None);
      ret (decision,
           set_decision_cache self (<[code := decision]> (_decision_cache self)))
  end.

(** [linecache.getline] is passed in as [getline]. *)
Definition is_inline_ignored (utils : Utils)
    (getline : option string -> Z -> string)
    (self : StyleGuide) (error : Error) : bool :=
  let physical_line := physical_line error in
  if disable_noqa (options self) then false
  else
    let physical_line :=
      match physical_line with
      | None => getline (filename error) (line_number error)
      | Some line => line
      end in
    match NOQA_INLINE_REGEXP_search physical_line with
    | None => false
    | Some None => true
    | Some (Some codes_str) =>
        let codes := parse_comma_separated_list utils codes_str in
        bool_decide (code error ∈ codes) || startswith_any (code error) codes
    end.

Definition is_in_diff (self : StyleGuide) (error : Error) : bool :=
  if bool_decide (_parsed_diff self = ∅) then true
  else
    match filename error with
    | None => false
    | Some name =>
        match _parsed_diff self !! name with
        | None => false
        | Some line_numbers =>
            if bool_decide (line_numbers = ∅) then false
            else bool_decide (line_number error ∈ line_numbers)
        end
    end.

Definition add_diff_ranges (self : StyleGuide) (diffinfo : gmap string (gset Z))
    : StyleGuide :=
  {| options := options self;
     _selected := _selected self;
     _ignored := _ignored self;
     _decision_cache := _decision_cache self;
     _parsed_diff := diffinfo |}.

(** [handle_error]: the errors handed to the formatter and the listener,
    and the style guide with its cache updated. *)
Definition handle_error (utils : Utils) (getline : option string -> Z -> string)
    (self : StyleGuide)
    (code : string) (filename : option string) (line_number column_number : Z)
    (text : string) (physical_line : option string)
    : result (list Error * StyleGuide) :=
  let error := mkError code filename line_number column_number text physical_line in
  let error :=
    if bool_decide (filename = None) || bool_decide (filename = Some "-"%string)
    then mkError code (stdin_display_name (options self)) line_number
                 column_number text physical_line
    else error in
  do r <- should_report_error self code;
  let '(decision, self') := r in
  let error_is_selected := bool_decide (decision = Some Decision_Selected) in
  let is_not_inline_ignored := negb (is_inline_ignored utils getline self' error) in
  let is_included_in_diff := is_in_diff self' error in
  if error_is_selected && is_not_inline_ignored && is_included_in_diff
  then ret ([error], self')
  else ret ([], self').

End style_guide.

(** ** flake8/checker.py *)

Module checker.

(** The syntax tree is only handed on to plugins. *)
Inductive AST : Type := Tree (id : nat).

(** What the checker calls on a [flake8.processor.FileProcessor]. *)
Record FileProcessor : Type := mkFileProcessor {
  line_for : Z -> option string;
  build_ast : result AST;
  should_ignore_file : bool;
}.

(** [flake8.processor]: the constructor [FileProcessor(filename, options)]. *)
Record ProcessorModule : Type := mkProcessorModule {
  FileProcessor_new : string -> style_guide.Options -> result FileProcessor;
}.

(** The builtins [str(value)] and [str(exception)] used in messages.  A
    [str] value is its own text. *)
Record Builtins : Type := mkBuiltins {
  str_value : pyval -> string;
  str_exception : exception -> string;
}.

Definition format_s (b : Builtins) (v : pyval) : string :=
  match v with
  | PStr s => s
  | _ => str_value b v
  end.

(** A syntax-tree plugin: [plugin.execute(tree=ast).run()] yields
    [(line_number, offset, text)] (the fourth component is dropped by the
    checker). *)
Record Plugin : Type := mkPlugin {
  plugin_name : string;
  run : AST -> list (Z * Z * string);
}.

(** An entry of [FileChecker.results]:
    [(error_code, line_number, column, text, physical_line)]. *)
Definition ErrorTuple : Type := string * Z * Z * string * option string.

Definition tup_0 (tup : ErrorTuple) : string := tup.1.1.1.1.
Definition tup_1 (tup : ErrorTuple) : Z := tup.1.1.1.2.
Definition tup_2 (tup : ErrorTuple) : Z := tup.1.1.2.
Definition tup_3 (tup : ErrorTuple) : string := tup.1.2.
Definition tup_4 (tup : ErrorTuple) : option string := tup.2.

(** A [FileChecker] object.  [processor] is [None] while the attribute is
    not yet bound, and [Some None] when it is bound to [None].  [executed]
    records, in order, the plugins whose [execute] was called. *)
Record FileChecker : Type := mkFileChecker {
  filename : string;
  ast_plugins : list Plugin;
  options : style_guide.Options;
  results : list ErrorTuple;
  processor : option (option FileProcessor);
  executed : list string;
}.

Definition set_results (self : FileChecker) (r : list ErrorTuple) : FileChecker :=
  mkFileChecker (filename self) (ast_plugins self) (options self) r
                (processor self) (executed self).

Definition set_processor (self : FileChecker) (p : option FileProcessor)
    : FileChecker :=
  mkFileChecker (filename self) (ast_plugins self) (options self)
                (results self) (Some p) (executed self).

Definition log_executed (self : FileChecker) (name : string) : FileChecker :=
  mkFileChecker (filename self) (ast_plugins self) (options self)
                (results self) (processor self) (executed self ++ [name]).

(** Methods run on the object and may raise; what they did to the object
    before raising stays done. *)
Definition M (A : Type) : Type := FileChecker -> result A * FileChecker.

Definition mret {A} (a : A) : M A := fun self => (ret a, self).
Definition mraise {A} (e : exception) : M A := fun self => (raise e, self).
Definition mbind {A B} (m : M A) (k : A -> M B) : M B :=
  fun self =>
    match m self with
    | (inl e, self') => (inl e, self')
    | (inr a, self') => k a self'
    end.
Definition lift {A} (r : result A) : M A := fun self => (r, self).

Notation "'exec' x <- m ; k" := (mbind m (fun x => k))
  (at level 10, x name, m at level 100, k at level 200).

(** [self.processor.<method>]: the attribute must be bound, and to an
    object that has the method. *)
Definition get_processor : M FileProcessor :=
  fun self =>
    match processor self with
    | None =>
        (raise (Exception AttributeError
                  [PStr "'FileChecker' object has no attribute 'processor'"]),
         self)
    | Some None =>
        (raise (Exception AttributeError
                  [PStr "'NoneType' object has no attribute"]), self)
    | Some (Some p) => (ret p, self)
    end.

(** [text.split(' ', 1)] unpacked into two names. *)
Fixpoint split_space (text : string) : option (string * string) :=
  match text with
  | EmptyString => None
  | String c rest =>
      if Ascii.eqb c " "%char then Some (EmptyString, rest)
      else
        match split_space rest with
        | Some (a, b) => Some (String c a, b)
        | None => None
        end
  end.

Definition report (error_code : option string) (line_number column : Z)
    (text : string) : M string :=
  exec ct <- lift
    match error_code with
    | Some c => ret (c, text)
    | None =>
        match split_space text with
        | Some (c, t) => ret (c, t)
        | None => raise (Exception ValueError
                           [PStr "not enough values to unpack"])
        end
    end;
  let '(error_code, text) := ct in
  exec p <- get_processor;
  let physical_line := line_for p line_number in
  let error : ErrorTuple := (error_code, line_number, column, text, physical_line) in
  fun self => (ret error_code, set_results self (results self ++ [error])).

Definition _make_processor (pm : ProcessorModule) (b : Builtins)
    : M (option FileProcessor) :=
  fun self =>
    match FileProcessor_new pm (filename self) (options self) with
    | inr p => (ret (Some p), self)
    | inl exception =>
        if issubclass (exc_type exception) IOError then
          let message :=
            class_name (exc_type exception) +:+ ": " +:+ str_exception b exception in
          (exec _ <- report (Some "E902"%string) 0 0 message; mret None) self
        else (raise exception, self)
    end.

(** [FileChecker(filename, checks, style_guide)]. *)
Definition __init__ (pm : ProcessorModule) (b : Builtins)
    (filename : string) (checks : list Plugin) (options : style_guide.Options)
    : result FileChecker :=
  let self := mkFileChecker filename checks options [] None [] in
  match _make_processor pm b self with
  | (inl e, _) => raise e
  | (inr p, self) => ret (set_processor self p)
  end.

(** A position component handed to [report]: the results hold integers,
    so a component of another type has no place in them. *)
Definition as_int (v : pyval) : result Z :=
  match v with
  | PInt z => ret z
  | _ => raise (Exception TypeError [PStr "position is not an integer"])
  end.

(** [for] over a list of statements run on the object. *)
Fixpoint for_each {A} (l : list A) (body : A -> M unit) : M unit :=
  match l with
  | [] => mret tt
  | x :: l' => exec _ <- body x; for_each l' body
  end.

Definition run_ast_checks (b : Builtins) : M unit :=
  exec p <- get_processor;
  match build_ast p with
  | inl exception =>
      if issubclass (exc_type exception) ValueError
         || issubclass (exc_type exception) SyntaxError
         || issubclass (exc_type exception) TypeError
      then
        let exc_type := exc_type exception in
        exec offset <- lift
          (if (1 <? length (args exception))%nat then
             do offset <- getitem (args exception) 1;
             do n <- len offset;
             if (2 <? n)%nat then slice offset 1 3 else ret offset
           else ret (PTuple [PInt 1; PInt 0]));
        exec line <- lift (do v <- index offset 0; as_int v);
        exec column <- lift (do v <- index offset 1; as_int v);
        exec message <- lift (getitem (args exception) 0);
        exec _ <- report (Some "E999"%string) line column
                   (class_name exc_type +:+ ": " +:+ format_s b message);
        mret tt
      else mraise exception
  | inr ast =>
      fun self =>
        for_each (ast_plugins self)
          (fun plugin =>
             exec _ <- (fun self => (ret tt, log_executed self (plugin_name plugin)));
             for_each (run plugin ast)
               (fun '(line_number, offset, text) =>
                  exec _ <- report None line_number offset text; mret tt))
          self
  end.

(** *** [find_offset] *)

(** An offset reported by a logical-line plugin: a [(line, column)] tuple
    or a single integer. *)
Inductive Offset : Type :=
  | OffsetTuple (line column : Z)
  | OffsetInt (offset : Z).

(** An entry of the mapping: [(token_offset, (line, column))]. *)
Definition MappingEntry : Type := Z * (Z * Z).

(** The [for] loop of [find_offset]: the loop variables when the loop is
    left, [bound] being their value before the first entry ([None] while
    they are unbound). *)
Fixpoint find_offset_loop (offset : Z) (mapping : list MappingEntry)
    (bound : option MappingEntry) : option MappingEntry :=
  match mapping with
  | [] => bound
  | (token_offset, position) :: mapping' =>
      if offset <=? token_offset then Some (token_offset, position)
      else find_offset_loop offset mapping' (Some (token_offset, position))
  end.

Definition find_offset (offset : Offset) (mapping : list MappingEntry)
    : result (Z * Z) :=
  match offset with
  | OffsetTuple line column => ret (line, column)
  | OffsetInt offset =>
      match find_offset_loop offset mapping None with
      | None =>
          raise (Exception UnboundLocalError
                   [PStr "local variable 'position' referenced before assignment"])
      | Some (token_offset, position) =>
          ret (position.1, position.2 + offset - token_offset)
      end
  end.

(** Items of the results queue: a checker's [(filename, results)], or the
    string ['DONE']. *)
Inductive QueueItem : Type :=
  | Item (filename : string) (results : list ErrorTuple)
  | DONE.

(** [run_checks(results_queue)]; the value is what was put on the queue.
    [process_tokens] is the token-driven part of the checker. *)
Definition run_checks (b : Builtins) (process_tokens : M unit)
    (results_queue : bool) : M (list QueueItem) :=
  exec p <- get_processor;
  if should_ignore_file p then mret []
  else
    exec _ <-
      (fun self =>
         match process_tokens self with
         | (inl exc, self') =>
             if issubclass (exc_type exc) InvalidSyntax then
               (exec error_code <- lift (do v <- getitem (args exc) 0;
                                         match v with
                                         | PStr c => ret (Some c)
                                         | _ => ret None
                                         end);
                exec line_number <- lift (do v <- getitem (args exc) 1; as_int v);
                exec column_number <- lift (do v <- getitem (args exc) 2; as_int v);
                exec error_message <- lift (getitem (args exc) 3);
                exec _ <- report error_code line_number column_number
                            (format_s b error_message);
                mret tt) self'
             else (raise exc, self')
         | (inr _, self') => (ret tt, self')
         end);
    exec _ <- run_ast_checks b;
    fun self =>
      (ret (if results_queue then [Item (filename self) (results self)] else []),
       self).

(** *** Manager *)

(** The [multiprocessing] module; [cpu_count()] may raise
    [NotImplementedError]. *)
Record Multiprocessing : Type := mkMultiprocessing {
  cpu_count : result Z;
}.

(** The characters [str.isdigit()] accepts: those whose Unicode numeric
    type is Decimal or Digit.  Below 256 these are [0]-[9] and the
    superscripts U+00B2, U+00B3 and U+00B9. *)
Definition is_str_digit (c : ascii) : bool :=
  let n := nat_of_ascii c in
  ((48 <=? n)%nat && (n <=? 57)%nat)
  || (n =? 178)%nat || (n =? 179)%nat || (n =? 185)%nat.

(** [str.isdigit()] *)
Fixpoint all_digits (s : string) : bool :=
  match s with
  | EmptyString => true
  | String c s' => is_str_digit c && all_digits s'
  end.

Definition isdigit (s : string) : bool :=
  negb (bool_decide (s = EmptyString)) && all_digits s.

(** The blanks [int] strips: the characters of [str.isspace()].  Below 256
    these are U+0009-U+000D, U+001C-U+0020, U+0085 and U+00A0. *)
Definition is_space (c : ascii) : bool :=
  let n := nat_of_ascii c in
  ((9 <=? n)%nat && (n <=? 13)%nat) || ((28 <=? n)%nat && (n <=? 32)%nat)
  || (n =? 133)%nat || (n =? 160)%nat.

Fixpoint lstrip (s : string) : string :=
  match s with
  | EmptyString => EmptyString
  | String c s' => if is_space c then lstrip s' else s
  end.

Fixpoint rstrip (s : string) : string :=
  match s with
  | EmptyString => EmptyString
  | String c s' =>
      match rstrip s' with
      | EmptyString => if is_space c then EmptyString else String c EmptyString
      | r => String c r
      end
  end.

(** The digits [int] reads are the characters of numeric type Decimal:
    below 256 only [0]-[9]. *)
Fixpoint digits_value (acc : Z) (s : string) : option Z :=
  match s with
  | EmptyString => Some acc
  | String c s' =>
      if style_guide.is_digit c
      then digits_value (10 * acc + (Z.of_nat (nat_of_ascii c) - 48)) s'
      else None
  end.

(** [int(s)] for a string in base ten: surrounding blanks and one sign are
    allowed; anything else raises [ValueError].  (The underscores that
    later versions of Python allow between digits are left out.) *)
Definition int (s : string) : result Z :=
  let s := rstrip (lstrip s) in
  let '(sign, body) :=
    match s with
    | String "+"%char r => (1, r)
    | String "-"%char r => (-1, r)
    | _ => (1, s)
    end in
  match body, digits_value 0 body with
  | String _ _, Some v => ret (sign * v)
  | _, _ => raise (Exception ValueError [PStr "invalid literal for int()"])
  end.

Definition quote : string := String (ascii_of_nat 34) EmptyString.

(** [_job_count]; the second component is what was passed to
    [LOG.warning]. *)
Definition _job_count (multiprocessing : option Multiprocessing)
    (utils : style_guide.Utils) (arguments : list string)
    (options : style_guide.Options) : result Z * list string :=
  match multiprocessing with
  | None =>
      (ret 0, ["The multiprocessing module is not available. Ignoring --jobs arguments."%string])
  | Some multiprocessing =>
      if style_guide.is_windows utils then
        (ret 0, ["The --jobs option is not available on Windows. Ignoring --jobs arguments."%string])
      else if style_guide.is_using_stdin utils arguments then
        (ret 0, ["The --jobs option is not compatible with supplying input using - . Ignoring --jobs arguments."%string])
      else if style_guide.diff options then
        (ret 0, ["The --diff option was specified with --jobs but they are not compatible. Ignoring --jobs arguments."%string])
      else
        let jobs := style_guide.jobs options in
        if negb (bool_decide (jobs = "auto"%string)) && negb (isdigit jobs) then
          (ret 0, [quote +:+ jobs +:+ quote +:+
                   " is not a valid parameter to --jobs. Must be one of " +:+
                   quote +:+ "auto" +:+ quote +:+ " or a numerical value, e.g., 4."])
        else if bool_decide (jobs = "auto"%string) then
          match cpu_count multiprocessing with
          | inr n => (ret n, [])
          | inl e =>
              if issubclass (exc_type e) NotImplementedError then (ret 0, [])
              else (raise e, [])
          end
        else (int jobs, [])
  end.

Record Manager : Type := mkManager {
  jobs : Z;
  using_multiprocessing : bool;
  checkers : list FileChecker;
}.

(** [Manager(style_guide, arguments, checker_plugins)]; the checkers are
    made later, by [make_checkers]. *)
Definition Manager__init__ (multiprocessing : option Multiprocessing)
    (utils : style_guide.Utils) (arguments : list string)
    (options : style_guide.Options) : result Manager :=
  do jobs <- (_job_count multiprocessing utils arguments options).1;
  ret (mkManager jobs (bool_decide (1 < jobs)) []).

(** [make_checkers], given the file names that the expansion of the
    arguments and the filter on names let through. *)
Fixpoint make_checkers (pm : ProcessorModule) (b : Builtins)
    (filenames : list string) (checks : list Plugin)
    (options : style_guide.Options) : result (list FileChecker) :=
  match filenames with
  | [] => ret []
  | filename :: filenames' =>
      do checker <- __init__ pm b filename checks options;
      do rest <- make_checkers pm b filenames' checks options;
      ret (checker :: rest)
  end.

Definition set_checkers (self : Manager) (cs : list FileChecker) : Manager :=
  mkManager (jobs self) (using_multiprocessing self) cs.

(** The [handle_error] call made for one entry of a checker's results. *)
Definition handle_error_call (filename : string) (tup : ErrorTuple)
    : style_guide.Error :=
  let '(error_code, line_number, column, text, line) := tup in
  style_guide.mkError error_code (Some filename) line_number column text line.

(** [<] on the keys of the two sorts. *)
Definition key_serial (tup : ErrorTuple) : Z * string := (tup_2 tup, tup_3 tup).
Definition key_parallel (tup : ErrorTuple) : Z * Z := (tup_1 tup, tup_2 tup).

Definition lt_Z_string : Z * string -> Z * string -> bool :=
  pair_ltb Z.ltb String.ltb.
Definition lt_Z_Z : Z * Z -> Z * Z -> bool := pair_ltb Z.ltb Z.ltb.

(** [_report_after_serial]: the calls of [style_guide.handle_error], in
    order. *)
Definition _report_after_serial (self : Manager) : list style_guide.Error :=
  flat_map
    (fun checker =>
       let results := sorted lt_Z_string key_serial (results checker) in
       let filename := filename checker in
       map (handle_error_call filename) results)
    (checkers self).

(** [report()] *)
Definition Manager_report (self : Manager) : list style_guide.Error :=
  if negb (using_multiprocessing self) then _report_after_serial self else [].

(** [_results]: the generator run against everything that will ever be
    put on the results queue.  It ends ([Concluded]) at the [break], with
    the items it left on the queue, or waits in [get()] for ever
    ([Blocked]); either way it has yielded the listed results. *)
Inductive Collected : Type :=
  | Concluded (yielded : list (string * list ErrorTuple)) (unread : list QueueItem)
  | Blocked (yielded : list (string * list ErrorTuple)).

Definition yield (r : string * list ErrorTuple) (c : Collected) : Collected :=
  match c with
  | Concluded ys unread => Concluded (r :: ys) unread
  | Blocked ys => Blocked (r :: ys)
  end.

Fixpoint _results_from (jobs seen_done : Z) (queue : list QueueItem) : Collected :=
  match queue with
  | [] => Blocked []
  | DONE :: queue' =>
      let seen_done := seen_done + 1 in
      if jobs <=? seen_done then Concluded [] queue'
      else _results_from jobs seen_done queue'
  | Item filename results :: queue' =>
      yield (filename, results) (_results_from jobs seen_done queue')
  end.

Definition _results (self : Manager) (queue : list QueueItem) : Collected :=
  _results_from (jobs self) 0 queue.

(** [_report_after_parallel]: [None] when the collection of results never
    ends, so that nothing is reported. *)
Definition _report_after_parallel (self : Manager) (queue : list QueueItem)
    : option (list style_guide.Error) :=
  match _results self queue with
  | Blocked _ => None
  | Concluded yielded _ =>
      let final_results : gmap string (list ErrorTuple) :=
        foldl (fun final_results '(filename, results) =>
                 <[filename := results]> final_results) ∅ yielded in
      Some
        (flat_map
           (fun checker =>
              let filename := filename checker in
              let results :=
                sorted lt_Z_Z key_parallel
                  (default [] (final_results !! filename)) in
              map (handle_error_call filename) results)
           (checkers self))
  end.

(** [_run_checks_from_queue] for a worker that took [taken] from the
    process queue before it took ['DONE']: what it has put on the results
    queue, and how it ended.  When a check raises, the worker ends with
    that exception; what the checks before it put stays on the queue, and
    no ['DONE'] follows.  The worker runs on its own copy of the
    checkers. *)
Fixpoint _run_checks_from_queue (b : Builtins) (process_tokens : M unit)
    (taken : list FileChecker) : list QueueItem * result unit :=
  match taken with
  | [] => ([DONE], ret tt)
  | checker :: taken' =>
      match run_checks b process_tokens true checker with
      | (inl e, _) => ([], raise e)
      | (inr put, _) =>
          let '(rest, outcome) :=
            _run_checks_from_queue b process_tokens taken' in
          (put ++ rest, outcome)
      end
  end.

(** [run_serial]: the checkers after their checks ran.  The results
    queue is [None] unless [run_parallel] made one. *)
Fixpoint run_serial_checkers (b : Builtins) (process_tokens : M unit)
    (checkers : list FileChecker) : result (list FileChecker) :=
  match checkers with
  | [] => ret []
  | checker :: checkers' =>
      match run_checks b process_tokens false checker with
      | (inl e, _) => raise e
      | (inr _, checker') =>
          do rest <- run_serial_checkers b process_tokens checkers';
          ret (checker' :: rest)
      end
  end.

Definition run_serial (b : Builtins) (process_tokens : M unit) (self : Manager)
    : result Manager :=
  do cs <- run_serial_checkers b process_tokens (checkers self);
  ret (set_checkers self cs).

(** [run_parallel]: the number of worker processes started, and the
    reporter process besides. *)
Definition run_parallel_workers (self : Manager) : nat := Z.to_nat (jobs self - 1).

(** The results queue holds the workers' puts in some interleaving. *)
Inductive interleaving {A} : list (list A) -> list A -> Prop :=
  | interleaving_done (ls : list (list A)) :
      Forall (fun l => l = []) ls -> interleaving ls []
  | interleaving_step (before after : list (list A)) (x : A) (l q : list A) :
      interleaving (before ++ l :: after) q ->
      interleaving (before ++ (x :: l) :: after) (x :: q).

(** *** Logical-line and physical-line checks

    The processor keeps the tokens, the current line number and the state
    handed to plugins; of these the checker's results depend only on what
    [build_logical_line] returned and on [processor.line_number], which
    are arguments here. *)

(** A logical-line plugin: [run_check(plugin, logical_line=...)] gives
    pairs [(offset, text)], or nothing. *)
Record LogicalPlugin : Type := mkLogicalPlugin {
  logical_name : string;
  logical_execute : string -> list (Offset * string);
}.

(** A physical-line plugin: [run_check(plugin, physical_line=...)] gives
    [None] or one [(column_offset, text)]. *)
Record PhysicalPlugin : Type := mkPhysicalPlugin {
  physical_name : string;
  physical_execute : string -> option (Z * string);
}.

(** [run_logical_checks], [built] being what
    [self.processor.build_logical_line()] returns:
    [(comments, logical_line, mapping)]. *)
Definition run_logical_checks
    (built : list string * string * list MappingEntry)
    (logical_line_plugins : list LogicalPlugin) : M unit :=
  exec _ <- get_processor;
  let '(comments, logical_line, mapping) := built in
  match mapping with
  | [] => mret tt
  | _ :: _ =>
      for_each logical_line_plugins
        (fun plugin =>
           exec _ <- (fun self => (ret tt, log_executed self (logical_name plugin)));
           for_each (logical_execute plugin logical_line)
             (fun '(offset, text) =>
                exec offset <- lift (find_offset offset mapping);
                let '(line_number, column_offset) := offset in
                exec _ <- report None line_number column_offset text;
                mret tt))
  end.

(** [run_physical_checks(physical_line)], [line_number] being
    [self.processor.line_number]. *)
Definition run_physical_checks (line_number : Z)
    (physical_line_plugins : list PhysicalPlugin) (physical_line : string)
    : M unit :=
  for_each physical_line_plugins
    (fun plugin =>
       exec _ <- get_processor;
       exec _ <- (fun self => (ret tt, log_executed self (physical_name plugin)));
       match physical_execute plugin physical_line with
       | Some (column_offset, text) =>
           exec error_code <- report None line_number column_offset text;
           mret tt
       | None => mret tt
       end).

End checker.

(** * The vocabulary of the statements, and the data of the examples *)

Import checker.

(** ** [StyleGuide.is_in_diff] *)

(** The entry of the diff table for an error's file. *)
Definition diff_entry (self : style_guide.StyleGuide) (error : style_guide.Error)
    : option (gset Z) :=
  match style_guide.filename error with
  | Some name => style_guide._parsed_diff self !! name
  | None => None
  end.

Definition diff_table_example : gmap string (gset Z) :=
  {[ "a.py"%string := {[ 3; 4; 5 ]} ]}.

Definition error_at (name : string) (line : Z) : style_guide.Error :=
  style_guide.mkError "E501" (Some name) line 0 "line too long" None.

Definition style_guide_example (table : gmap string (gset Z))
    : style_guide.StyleGuide :=
  style_guide.add_diff_ranges
    (style_guide.__init__ (style_guide.mkOptions [] [] false None false "auto"))
    table.

(** ** [Manager._job_count] *)

Definition utils_posix : style_guide.Utils :=
  style_guide.mkUtils (fun _ => []) false (fun _ => false).

Definition options_jobs (jobs : string) : style_guide.Options :=
  style_guide.mkOptions [] [] false None false jobs.

(** A string of the decimal digits [0]-[9], and the number such a string
    writes in base ten: the digit that stands [i] places from the right
    counts [10 ^ i] times. *)
Fixpoint all_decimal (s : string) : bool :=
  match s with
  | EmptyString => true
  | String c s' => style_guide.is_digit c && all_decimal s'
  end.


(** The superscript two, U+00B2. *)
Definition superscript_two : string := String (ascii_of_nat 178) EmptyString.


(** ** [StyleGuide.should_report_error] *)

(** The style guides a run can hold: the one made by [__init__], changed
    only by [add_diff_ranges] and by the cache updates of
    [should_report_error]. *)
Inductive reachable : style_guide.StyleGuide -> Prop :=
  | reachable_init (options : style_guide.Options) :
      reachable (style_guide.__init__ options)
  | reachable_add_diff_ranges self diffinfo :
      reachable self -> reachable (style_guide.add_diff_ranges self diffinfo)
  | reachable_should_report self code decision self' :
      reachable self ->
      style_guide.should_report_error self code = ret (decision, self') ->
      reachable self'.

(** The decision [should_report_error] computes when the cache has none. *)
Definition decision_of (self : style_guide.StyleGuide) (code : string)
    : result (option style_guide.Decision) :=
  match style_guide.is_user_selected self code,
        style_guide.is_user_ignored self code with
  | (style_guide.Selected_Explicitly | style_guide.Selected_Implicitly),
    style_guide.Selected_Implicitly => ret (Some style_guide.Decision_Selected)
  | style_guide.Selected_Explicitly, style_guide.Ignored_Explicitly =>
      do d <- style_guide._decision_for self code; ret (Some d)
  | style_guide.Ignored_Implicitly, _ | _, style_guide.Ignored_Explicitly =>
      ret (Some style_guide.Decision_Ignored)
  | _, _ => ret None
  end.

(** The cache holds only decisions that would be computed again. *)
Definition cache_ok (self : style_guide.StyleGuide) : Prop :=
  forall code d,
    style_guide._decision_cache self !! code = Some d ->
    decision_of self code = ret d.

(** [p] is the smallest, in the order of strings, of the prefixes of
    [code] among [prefixes]. *)
Definition smallest_matching (prefixes : list string) (code p : string) : Prop :=
  p ∈ prefixes /\ startswith code p = true
  /\ forall q, q ∈ prefixes -> startswith code q = true -> String.ltb q p = false.

Definition style_guide_E1_E : style_guide.StyleGuide :=
  style_guide.__init__
    (style_guide.mkOptions ["E1"%string] ["E"%string] false None false "auto").

(** ** [StyleGuide.is_inline_ignored] *)

Definition hash : ascii := "#"%char.

Fixpoint has_hash (s : string) : bool :=
  match s with
  | EmptyString => false
  | String c s' => Ascii.eqb c hash || has_hash s'
  end.

Fixpoint lower_string (s : string) : string :=
  match s with
  | EmptyString => EmptyString
  | String c s' => String (style_guide.lower c) (lower_string s')
  end.

Fixpoint all_in_codes_class (s : string) : bool :=
  match s with
  | EmptyString => true
  | String c s' => style_guide.in_codes_class c && all_in_codes_class s'
  end.

(** The end of a physical line: nothing, or one newline. *)
Definition is_line_end (s : string) : Prop :=
  s = EmptyString \/ s = String style_guide.newline EmptyString.

(** The line [is_inline_ignored] searches. *)
Definition line_of (getline : option string -> Z -> string)
    (error : style_guide.Error) : string :=
  match style_guide.physical_line error with
  | Some line => line
  | None => getline (style_guide.filename error) (style_guide.line_number error)
  end.

(** Modelled from the spec: [flake8.utils.parse_comma_separated_list] is
    not among the sources; the spec speaks of "a comma-separated list of
    codes".  The text is split at every comma and the items are stripped
    of surrounding blanks; an empty text has no items. *)
Fixpoint split_commas (s : string) : list string :=
  match s with
  | EmptyString => [EmptyString]
  | String c s' =>
      if Ascii.eqb c ","%char then EmptyString :: split_commas s'
      else
        match split_commas s' with
        | item :: items => String c item :: items
        | [] => [String c EmptyString]
        end
  end.

Definition parse_comma_separated_list_model (value : string) : list string :=
  if bool_decide (value = EmptyString) then []
  else map (fun item => rstrip (lstrip item)) (split_commas value).

Definition utils_model : style_guide.Utils :=
  style_guide.mkUtils parse_comma_separated_list_model false (fun _ => false).

Definition options_noqa (disable_noqa : bool) : style_guide.Options :=
  style_guide.mkOptions [] [] disable_noqa None false "auto".

Definition error_on_line (code line : string) : style_guide.Error :=
  style_guide.mkError code (Some "a.py"%string) 1 0 "message" (Some line).

(** ** [FileChecker.run_ast_checks] on a tree that cannot be built *)




Definition processor_syntax_error : FileProcessor :=
  mkFileProcessor
    (fun _ => Some "def f(:"%string)
    (raise (Exception SyntaxError
              [PStr "invalid syntax";
               PTuple [PStr "a.py"; PInt 3; PInt 7; PStr "def f(:"]]))
    false.

Definition plugin_example : Plugin :=
  mkPlugin "C90" (fun _ => [(2, 0, "E1 first"%string); (1, 5, "E2 second"%string)]).

Definition builtins_example : Builtins :=
  mkBuiltins (fun _ => "<value>"%string) (fun _ => "<exception>"%string).

Definition checker_syntax_error : FileChecker :=
  mkFileChecker "a.py" [plugin_example] (options_noqa false) []
                (Some (Some processor_syntax_error)) [].

(** ** [FileChecker.__init__] on a file that cannot be read *)

Definition processor_module_missing : ProcessorModule :=
  mkProcessorModule
    (fun name _ =>
       raise (Exception (Subclass "FileNotFoundError" IOError)
                [PInt 2; PStr "No such file or directory"])).

(** ** The order of the reports *)

(** [(line, column)] of [x] is not after that of [y]. *)
Definition position_le (x y : Z * Z) : Prop :=
  x.1 < y.1 \/ (x.1 = y.1 /\ x.2 <= y.2).

Definition position (error : style_guide.Error) : Z * Z :=
  (style_guide.line_number error, style_guide.column_number error).

(** The reports of one file, by position, never go back. *)
Definition nondecreasing (reports : list style_guide.Error) : Prop :=
  Sorted (fun x y => position_le (position x) (position y)) reports.


Definition checker_with (name : string) (rs : list ErrorTuple) : FileChecker :=
  mkFileChecker name [] (options_noqa false) rs
    (Some (Some (mkFileProcessor (fun _ => None) (ret (Tree 0)) false))) [].

Definition results_two_lines : list ErrorTuple :=
  [("E501"%string, 1, 80, "line too long"%string, None);
   ("E303"%string, 2, 0, "too many blank lines"%string, None)].

(** ** The results queue and its sentinels *)

Fixpoint count_done (queue : list QueueItem) : Z :=
  match queue with
  | [] => 0
  | DONE :: queue' => 1 + count_done queue'
  | Item _ _ :: queue' => count_done queue'
  end.

Fixpoint items_of (queue : list QueueItem) : list (string * list ErrorTuple) :=
  match queue with
  | [] => []
  | DONE :: queue' => items_of queue'
  | Item name rs :: queue' => (name, rs) :: items_of queue'
  end.

Definition total_done (outputs : list (list QueueItem)) : Z :=
  foldr (fun out n => count_done out + n) 0 outputs.

(** [run_checks] raises for a checker, in a worker. *)
Definition check_raises (b : Builtins) (process_tokens : M unit)
    (checker : FileChecker) : Prop :=
  exists e, (run_checks b process_tokens true checker).1 = inl e.

(** What [run_checks] puts on the results queue for a checker. *)
Definition puts_of (b : Builtins) (process_tokens : M unit)
    (checker : FileChecker) : list QueueItem :=
  match run_checks b process_tokens true checker with
  | (inr put, _) => put
  | (inl _, _) => []
  end.

(** The token checks of a run in which a plugin raises on one file. *)
Definition tokens_crash_on (name : string) : M unit :=
  fun self =>
    if bool_decide (filename self = name)
    then (raise (Exception ValueError [PStr "plugin failed"]), self)
    else (ret tt, self).

Definition manager_two_jobs : Manager :=
  mkManager 2 true [checker_with "a.py" results_two_lines].

(** ** A serial run and a run with two jobs *)

Definition processor_module_fine : ProcessorModule :=
  mkProcessorModule
    (fun _ _ => ret (mkFileProcessor (fun _ => None) (ret (Tree 0)) false)).

Definition multiprocessing_example : option Multiprocessing :=
  Some (mkMultiprocessing (ret 8)).

(** ** More on [StyleGuide.should_report_error] *)

Definition style_guide_E1 : style_guide.StyleGuide :=
  style_guide.__init__
    (style_guide.mkOptions ["E1"%string] [] false None false "auto").

(** ** Prefixes of one code *)

Definition style_guide_E_E12_E1 : style_guide.StyleGuide :=
  style_guide.__init__
    (style_guide.mkOptions ["E"%string; "E12"%string] ["E1"%string]
       false None false "auto").

(** ** What the inline pattern matches *)

(** The value of the [codes] group for a list of codes: the group takes no
    part when the list is empty. *)
Definition codes_group (codes : string) : option string :=
  match codes with
  | EmptyString => None
  | _ => Some codes
  end.

(** ** [StyleGuide.handle_error] *)

(** The error [handle_error] builds: a file name that is [None] or ["-"]
    is replaced by the display name of standard input. *)
Definition error_handled (self : style_guide.StyleGuide)
    (code : string) (filename : option string) (line_number column_number : Z)
    (text : string) (physical_line : option string) : style_guide.Error :=
  style_guide.mkError code
    (match filename with
     | None => style_guide.stdin_display_name (style_guide.options self)
     | Some name =>
         if String.eqb name "-"
         then style_guide.stdin_display_name (style_guide.options self)
         else Some name
     end)
    line_number column_number text physical_line.

(** ** [FileChecker.report] *)

Fixpoint has_space (s : string) : bool :=
  match s with
  | EmptyString => false
  | String c s' => Ascii.eqb c " "%char || has_space s'
  end.

(** ** What the checks of a file keep *)

(** [self'] is [self] after some entries were added to its results and
    some plugins were executed: nothing recorded before was dropped or
    changed, and the file, the plugins and the processor are the same. *)
Definition extends (self self' : FileChecker) : Prop :=
  filename self' = filename self
  /\ ast_plugins self' = ast_plugins self
  /\ options self' = options self
  /\ processor self' = processor self
  /\ (exists added, results self' = results self ++ added)
  /\ (exists names, executed self' = executed self ++ names).

(** A method keeps what is recorded, whether it returns or raises. *)
Definition keeps {A} (m : M A) : Prop :=
  forall self r self', m self = (r, self') -> extends self self'.

(** ** [FileChecker.run_ast_checks] on a tree that was built *)

(** The entry recorded for what a tree plugin yields: the code is taken
    from the text. *)
Definition ast_entry (p : FileProcessor) (yielded : Z * Z * string) : ErrorTuple :=
  let '(line_number, offset, text) := yielded in
  match split_space text with
  | Some (code, message) => (code, line_number, offset, message, line_for p line_number)
  | None => (text, line_number, offset, EmptyString, line_for p line_number)
  end.

Definition checker_two_plugins : FileChecker :=
  mkFileChecker "a.py"
    [plugin_example; mkPlugin "N8" (fun _ => [(1, 0, "N801 class name"%string)])]
    (options_noqa false) [("E501"%string, 9, 80, "line too long"%string, None)]
    (Some (Some (mkFileProcessor (fun _ => None) (ret (Tree 0)) false))) [].

(** ** [FileChecker.run_checks] *)

Definition tokens_invalid : M unit :=
  fun self =>
    (raise (Exception InvalidSyntax
              [PStr "E902"; PInt 4; PInt 2; PStr "TokenError: EOF in multi-line statement"]),
     set_results self
       (results self ++ [("E111"%string, 2, 3, "indentation"%string, None)])).

(** ** More on [Manager._job_count] *)


(** ** What the reports hold *)

(** The calls that hand over every entry of every checker, unsorted. *)
Definition all_calls (checkers : list FileChecker) : list style_guide.Error :=
  flat_map (fun checker => map (handle_error_call (filename checker)) (results checker))
    checkers.

(** The last results put on the queue for a file, among what the
    reporter collected. *)
Definition last_put (name : string) (yielded : list (string * list ErrorTuple))
    : option (list ErrorTuple) :=
  snd <$> last (filter (fun item => item.1 = name) yielded).

Definition collect (final_results : gmap string (list ErrorTuple))
    (yielded : list (string * list ErrorTuple)) : gmap string (list ErrorTuple) :=
  foldl (fun final_results '(filename, results) =>
           <[filename := results]> final_results) final_results yielded.

Definition manager_one_job : Manager :=
  mkManager 1 false
    [checker_with "a.py" []; checker_with "b.py" results_two_lines].

(** ** [Manager.make_checkers] and the workers *)

(** A checker as its constructor leaves it. *)
Definition fresh_checker (pm : ProcessorModule) (checks : list Plugin)
    (options : style_guide.Options) (checker : FileChecker) : Prop :=
  ast_plugins checker = checks
  /\ checker.(checker.options) = options
  /\ results checker = []
  /\ executed checker = []
  /\ exists p, processor checker = Some (Some p)
               /\ FileProcessor_new pm (filename checker) options = ret p.

Definition processor_module_one_missing : ProcessorModule :=
  mkProcessorModule
    (fun name _ =>
       if String.eqb name "missing.py"
       then raise (Exception (Subclass "FileNotFoundError" IOError)
                     [PInt 2; PStr "No such file or directory"])
       else ret (mkFileProcessor (fun _ => None) (ret (Tree 0)) false)).

(** ** [run_logical_checks] and [run_physical_checks] *)

(** The only exceptions of a method are of the classes [allowed]. *)
Definition only_raises {A} (allowed : exc_class -> Prop) (m : M A) : Prop :=
  forall self e self', m self = (inl e, self') -> allowed (exc_type e).

(** [AttributeError] for a processor that is not there, [ValueError] for
    a text without a code. *)
Definition attribute_or_value (c : exc_class) : Prop :=
  c = AttributeError \/ c = ValueError.

Definition plugin_no_code : LogicalPlugin :=
  mkLogicalPlugin "W6" (fun _ => [(OffsetInt 3, "deprecated"%string)]).

(** The entry recorded for what a logical-line plugin reports: the
    position is the one [find_offset] gives. *)
Definition logical_entry (p : FileProcessor) (mapping : list MappingEntry)
    (reported : Offset * string) : ErrorTuple :=
  let '(offset, text) := reported in
  match find_offset offset mapping with
  | inr (line_number, column_offset) => ast_entry p (line_number, column_offset, text)
  | inl _ => ast_entry p (0, 0, text)
  end.

Definition plugin_logical : LogicalPlugin :=
  mkLogicalPlugin "E2"
    (fun _ => [(OffsetInt 3, "E225 missing whitespace"%string);
               (OffsetTuple 7 0, "E303 too many blank lines"%string)]).

Definition plugin_too_long : PhysicalPlugin :=
  mkPhysicalPlugin "E501"
    (fun line => if (79 <? String.length line)%nat
                 then Some (79, "E501 line too long"%string) else None).

Definition plugin_tabs : PhysicalPlugin :=
  mkPhysicalPlugin "W191" (fun _ => Some (0, "W191 indentation contains tabs"%string)).

(** * Properties *)

(** ** [find_offset] *)

Lemma find_offset_loop_past_end (offset : Z) (mapping : list MappingEntry)
    (bound : option MappingEntry) :
  Forall (fun entry => entry.1 < offset) mapping ->
  find_offset_loop offset mapping bound = last (option_list bound ++ mapping).
Proof.
  revert bound. induction mapping as [|[token_offset position] mapping IH];
    intros bound Hall.
  - simpl. rewrite app_nil_r. destruct bound; reflexivity.
  - inversion Hall as [|? ? Hlt Hall']; subst. simpl in Hlt |- *.
    destruct (Z.leb_spec offset token_offset) as [Hle|_]; [lia|].
    rewrite IH by assumption. simpl.
    destruct bound as [e|]; simpl.
    + rewrite !last_cons. destruct (last mapping); reflexivity.
    + reflexivity.
Qed.

(** C10.  On a non-empty mapping, an integer offset greater than every
    token offset of the mapping is resolved against the last entry: the
    result is that entry's line, and its column plus the distance from
    its token offset.  A tuple offset is returned as it is. *)
Theorem find_offset_past_every_boundary :
  (forall (offset : Z) (mapping : list MappingEntry)
          (token_offset line column : Z),
      last mapping = Some (token_offset, (line, column)) ->
      Forall (fun entry => entry.1 < offset) mapping ->
      find_offset (OffsetInt offset) mapping
      = ret (line, column + (offset - token_offset)))
  /\ (forall (line column : Z) (mapping : list MappingEntry),
      find_offset (OffsetTuple line column) mapping = ret (line, column)).
Proof.
  split; [|reflexivity].
  intros offset mapping token_offset line column Hlast Hall.
  unfold find_offset.
  rewrite find_offset_loop_past_end by assumption. simpl.
  rewrite Hlast. simpl. f_equal. f_equal. lia.
Qed.

Lemma find_offset_past_every_boundary_witness :
  find_offset (OffsetInt 9) [(0, (3, 4)); (5, (4, 0))] = ret (4, 0 + (9 - 5)).
Proof.
  apply (proj1 find_offset_past_every_boundary 9 [(0, (3, 4)); (5, (4, 0))] 5 4 0).
  - reflexivity.
  - repeat constructor; simpl; lia.
Defined.

(** ** [StyleGuide.is_in_diff] *)

(** C7.  With an empty diff table every error is in the diff.  With a
    table, an error whose file has no entry, or an empty set of line
    numbers, is not; otherwise it is exactly when its line number is in
    the set of its file. *)
Theorem is_in_diff_spec (self : style_guide.StyleGuide) (error : style_guide.Error) :
  (style_guide._parsed_diff self = ∅ -> style_guide.is_in_diff self error = true)
  /\ (style_guide._parsed_diff self <> ∅ ->
      (diff_entry self error = None -> style_guide.is_in_diff self error = false)
      /\ (diff_entry self error = Some ∅ ->
          style_guide.is_in_diff self error = false)
      /\ (forall line_numbers : gset Z,
            diff_entry self error = Some line_numbers ->
            line_numbers <> ∅ ->
            (style_guide.is_in_diff self error = true
             <-> style_guide.line_number error ∈ line_numbers))).
Proof.
  unfold style_guide.is_in_diff, diff_entry. split.
  - intros ->. rewrite bool_decide_eq_true_2; reflexivity.
  - intros Hne. rewrite bool_decide_eq_false_2 by assumption.
    destruct (style_guide.filename error) as [name|].
    + split; [|split].
      * intros ->. reflexivity.
      * intros ->. rewrite bool_decide_eq_true_2; reflexivity.
      * intros line_numbers -> Hlines.
        rewrite bool_decide_eq_false_2 by assumption.
        apply bool_decide_eq_true.
    + split; [|split]; try discriminate. reflexivity.
Qed.

Lemma is_in_diff_spec_witness :
  style_guide.is_in_diff (style_guide_example diff_table_example)
    (error_at "a.py" 4) = true
  <-> style_guide.line_number (error_at "a.py" 4) ∈ ({[ 3; 4; 5 ]} : gset Z).
Proof.
  apply (proj2 (is_in_diff_spec (style_guide_example diff_table_example)
                  (error_at "a.py" 4))).
  - vm_compute. discriminate.
  - reflexivity.
  - vm_compute. discriminate.
Defined.

(** The table [{"a.py": {3,4,5}}]: of the errors at [a.py] lines 2 and 4
    and at [b.py] line 1, only the one at line 4 is in the diff. *)
Example is_in_diff_table :
  let sg := style_guide_example diff_table_example in
  style_guide.is_in_diff sg (error_at "a.py" 2) = false
  /\ style_guide.is_in_diff sg (error_at "a.py" 4) = true
  /\ style_guide.is_in_diff sg (error_at "b.py" 1) = false
  /\ style_guide.is_in_diff (style_guide_example ∅) (error_at "b.py" 1) = true.
Proof. vm_compute. repeat split. Qed.

(** ** [Manager._job_count] *)

Lemma str_digit_not_space (c : ascii) :
  is_str_digit c = true -> is_space c = false.
Proof.
  destruct c as [[] [] [] [] [] [] [] []]; vm_compute; intros H;
    first [reflexivity | discriminate H].
Qed.



Lemma all_digits_lstrip (s : string) : all_digits s = true -> lstrip s = s.
Proof.
  destruct s as [|c s]; [reflexivity|]. simpl. intros H.
  apply andb_true_iff in H as [Hc _].
  rewrite (str_digit_not_space c Hc). reflexivity.
Qed.

Lemma all_digits_rstrip (s : string) : all_digits s = true -> rstrip s = s.
Proof.
  induction s as [|c s IH]; [reflexivity|]. simpl. intros H.
  apply andb_true_iff in H as [Hc Hs].
  rewrite (IH Hs). destruct s; [|reflexivity].
  rewrite (str_digit_not_space c Hc). reflexivity.
Qed.

(** A string that [str.isdigit] accepts starts with no sign. *)
Lemma all_digits_no_sign (c : ascii) (s : string) :
  is_str_digit c = true ->
  match String c s with
  | String "+"%char r => (1, r)
  | String "-"%char r => (-1, r)
  | _ => (1, String c s)
  end = (1, String c s).
Proof.
  destruct c as [[] [] [] [] [] [] [] []]; vm_compute; intros H;
    first [reflexivity | discriminate H].
Qed.



Lemma digits_value_not_decimal (s : string) (acc : Z) :
  all_decimal s = false -> digits_value acc s = None.
Proof.
  revert acc. induction s as [|c s IH]; intros acc H; simpl in *.
  - discriminate.
  - destruct (style_guide.is_digit c); [|reflexivity]. apply IH. exact H.
Qed.


(** [int] raises [ValueError] on a string that [str.isdigit] accepts and
    that holds a character other than [0]-[9]. *)
Lemma int_of_other_digits (s : string) :
  isdigit s = true -> all_decimal s = false ->
  int s = raise (Exception ValueError [PStr "invalid literal for int()"]).
Proof.
  unfold isdigit. intros H Hdec. apply andb_true_iff in H as [_ Hall].
  unfold int. rewrite (all_digits_lstrip s Hall), (all_digits_rstrip s Hall).
  destruct s as [|c s]; [discriminate|].
  assert (Hc : is_str_digit c = true).
  { simpl in Hall. apply andb_true_iff in Hall as [Hc _]. exact Hc. }
  rewrite (all_digits_no_sign c s Hc).
  rewrite (digits_value_not_decimal _ 0 Hdec). reflexivity.
Qed.

Lemma isdigit_not_auto (s : string) : isdigit s = true -> s <> "auto"%string.
Proof. intros H ->. discriminate H. Qed.

(** C8 on the code.  The guard of [_job_count] for a value that is no
    number is [not jobs.isdigit()], and [str.isdigit] accepts characters
    that [int] does not read: the superscript digits U+00B2, U+00B3 and
    U+00B9.  A value of [--jobs] made of digits, one of which is such a
    character, is neither ["auto"] nor an integer, and passes the guard;
    [_job_count] then ends in [int(jobs)], which raises [ValueError]:
    it does not return 0, and logs no warning. *)
Theorem job_count_digit_string_raises
    (m : Multiprocessing) (utils : style_guide.Utils)
    (arguments : list string) (options : style_guide.Options) :
  style_guide.is_windows utils = false ->
  style_guide.is_using_stdin utils arguments = false ->
  style_guide.diff options = false ->
  isdigit (style_guide.jobs options) = true ->
  all_decimal (style_guide.jobs options) = false ->
  style_guide.jobs options <> "auto"%string
  /\ raises (int (style_guide.jobs options)) ValueError
  /\ exists e,
       _job_count (Some m) utils arguments options = (raise e, [])
       /\ exc_type e = ValueError.
Proof.
  intros Hwin Hstdin Hdiff Hdig Hdec.
  pose proof (isdigit_not_auto _ Hdig) as Hauto.
  split; [exact Hauto|].
  rewrite (int_of_other_digits _ Hdig Hdec).
  split; [reflexivity|].
  exists (Exception ValueError [PStr "invalid literal for int()"]).
  split; [|reflexivity].
  unfold _job_count. rewrite Hwin, Hstdin, Hdiff, Hdig.
  rewrite !bool_decide_eq_false_2 by assumption. simpl.
  rewrite (int_of_other_digits _ Hdig Hdec). reflexivity.
Qed.

Lemma job_count_digit_string_raises_witness :
  superscript_two <> "auto"%string
  /\ raises (int superscript_two) ValueError
  /\ exists e,
       _job_count (Some (mkMultiprocessing (ret 8))) utils_posix []
         (options_jobs superscript_two) = (raise e, [])
       /\ exc_type e = ValueError.
Proof.
  apply (job_count_digit_string_raises (mkMultiprocessing (ret 8)) utils_posix
           [] (options_jobs superscript_two)); reflexivity.
Defined.

Example job_count_values :
  let mp := Some (mkMultiprocessing (ret 8)) in
  (_job_count mp utils_posix [] (options_jobs "4")).1 = ret 4
  /\ (_job_count mp utils_posix [] (options_jobs "12")).1 = ret 12
  /\ (_job_count mp utils_posix [] (options_jobs "007")).1 = ret 7
  /\ (_job_count mp utils_posix [] (options_jobs "auto")).1 = ret 8
  /\ (_job_count mp utils_posix [] (options_jobs "0")).1 = ret 0
  /\ (_job_count mp utils_posix [] (options_jobs "banana")).1 = ret 0
  /\ (_job_count mp utils_posix [] (options_jobs "")).1 = ret 0
  /\ (_job_count mp utils_posix [] (options_jobs " 4")).1 = ret 0
  /\ (_job_count None utils_posix [] (options_jobs "4")).1 = ret 0.
Proof. repeat split. Qed.

(** ** [sorted] *)

Section SortedFacts.
Context {A K : Type} (lt : K -> K -> bool) (key : A -> K).
Hypothesis lt_asym : forall a b, lt a b = true -> lt b a = false.
Hypothesis lt_negtrans :
  forall a b c, lt a c = true -> lt a b = true \/ lt b c = true.

(** [x] may stand before [y]: the key of [y] is not smaller. *)
Definition key_le (x y : A) : Prop := lt (key y) (key x) = false.

Lemma key_le_trans (x y z : A) : key_le x y -> key_le y z -> key_le x z.
Proof.
  unfold key_le. intros Hxy Hyz.
  destruct (lt (key z) (key x)) eqn:Hzx; [|reflexivity].
  destruct (lt_negtrans _ (key y) _ Hzx); congruence.
Qed.

Lemma insert_sorted_perm (x : A) (l : list A) :
  Permutation (insert_sorted lt key x l) (x :: l).
Proof.
  induction l as [|y l IH]; simpl; [reflexivity|].
  destruct (lt (key y) (key x)); [|reflexivity].
  rewrite IH. apply perm_swap.
Qed.

Lemma sorted_perm (l : list A) : Permutation (sorted lt key l) l.
Proof.
  induction l as [|x l IH]; simpl; [reflexivity|].
  fold (sorted lt key l). rewrite insert_sorted_perm, IH. reflexivity.
Qed.

Lemma insert_sorted_ordered (x : A) (l : list A) :
  StronglySorted key_le l -> StronglySorted key_le (insert_sorted lt key x l).
Proof.
  induction l as [|y l IH]; intros Hl; simpl.
  - repeat constructor.
  - inversion Hl as [|? ? Hl' Hy]; subst.
    destruct (lt (key y) (key x)) eqn:Hyx.
    + constructor; [apply IH; assumption|].
      rewrite insert_sorted_perm. constructor; [|assumption].
      unfold key_le. apply lt_asym. assumption.
    + constructor; [assumption|]. constructor; [assumption|].
      eapply Forall_impl; [exact Hy|]. intros z Hz.
      eapply key_le_trans; [exact Hyx|exact Hz].
Qed.

Lemma sorted_ordered (l : list A) : StronglySorted key_le (sorted lt key l).
Proof.
  induction l as [|x l IH]; simpl; [constructor|].
  apply insert_sorted_ordered. exact IH.
Qed.

(** The first element of the sorted list is in the list, and no element
    of the list has a smaller key. *)
Lemma sorted_head (l : list A) (x : A) (rest : list A) :
  sorted lt key l = x :: rest ->
  x ∈ l /\ forall y, y ∈ l -> lt (key y) (key x) = false.
Proof.
  intros Hs. pose proof (sorted_perm l) as Hp.
  pose proof (sorted_ordered l) as Ho. rewrite Hs in Hp, Ho.
  split.
  - rewrite <- Hp. left.
  - intros y Hy. rewrite <- Hp in Hy.
    inversion Ho as [|? ? _ Hall]; subst.
    apply elem_of_cons in Hy as [->|Hy].
    + destruct (lt (key x) (key x)) eqn:E; [|reflexivity].
      rewrite (lt_asym _ _ E) in E. discriminate.
    + rewrite Forall_forall in Hall. apply Hall. assumption.
Qed.

Lemma sorted_nonempty (l : list A) : l <> [] -> sorted lt key l <> [].
Proof.
  intros Hne Hs. apply Hne. apply Permutation_nil.
  rewrite <- Hs. apply sorted_perm.
Qed.

End SortedFacts.

(** The order of strings. *)
Lemma ascii_compare_lt_trans (a b c : ascii) :
  Ascii.compare a b = Lt -> Ascii.compare b c = Lt -> Ascii.compare a c = Lt.
Proof.
  unfold Ascii.compare. rewrite !N.compare_lt_iff. lia.
Qed.

Lemma string_compare_lt_trans (s1 s2 s3 : string) :
  String.compare s1 s2 = Lt -> String.compare s2 s3 = Lt ->
  String.compare s1 s3 = Lt.
Proof.
  revert s2 s3. induction s1 as [|c1 s1 IH]; intros [|c2 s2] [|c3 s3];
    simpl; try discriminate; try reflexivity.
  destruct (Ascii.compare c1 c2) eqn:E12; try discriminate;
    destruct (Ascii.compare c2 c3) eqn:E23; try discriminate; intros H12 H23.
  - apply Ascii.compare_eq_iff in E12, E23. subst.
    replace (Ascii.compare c3 c3) with Eq; [eauto|].
    unfold Ascii.compare. symmetry. apply N.compare_refl.
  - apply Ascii.compare_eq_iff in E12. subst. rewrite E23. reflexivity.
  - apply Ascii.compare_eq_iff in E23. subst. rewrite E12. reflexivity.
  - rewrite (ascii_compare_lt_trans _ _ _ E12 E23). reflexivity.
Qed.

Lemma string_ltb_asym (a b : string) :
  String.ltb a b = true -> String.ltb b a = false.
Proof.
  unfold String.ltb. rewrite (String.compare_antisym a b).
  destruct (String.compare b a); simpl; congruence.
Qed.

Lemma string_ltb_negtrans (a b c : string) :
  String.ltb a c = true -> String.ltb a b = true \/ String.ltb b c = true.
Proof.
  unfold String.ltb. intros Hac.
  destruct (String.compare a c) eqn:Eac; try discriminate.
  destruct (String.compare a b) eqn:Eab; [|left; reflexivity|].
  - apply String.compare_eq_iff in Eab. subst. rewrite Eac. right. reflexivity.
  - right. rewrite String.compare_antisym in Eab.
    destruct (String.compare b a) eqn:Eba; try discriminate.
    rewrite (string_compare_lt_trans _ _ _ Eba Eac). reflexivity.
Qed.

(** ** [StyleGuide.should_report_error] *)

Lemma should_report_error_unfold self code :
  style_guide.should_report_error self code =
  match style_guide.cache_get (style_guide._decision_cache self) code with
  | Some decision => ret (Some decision, self)
  | None =>
      do decision <- decision_of self code;
      ret (decision,
           style_guide.set_decision_cache self
             (<[code := decision]> (style_guide._decision_cache self)))
  end.
Proof.
  unfold style_guide.should_report_error, decision_of.
  destruct (style_guide.cache_get _ code); [reflexivity|].
  destruct (style_guide.is_user_selected self code),
           (style_guide.is_user_ignored self code); reflexivity.
Qed.

Lemma is_user_selected_cases self code :
  style_guide.is_user_selected self code <> style_guide.Ignored_Explicitly.
Proof.
  unfold style_guide.is_user_selected. repeat case_match; discriminate.
Qed.

Lemma is_user_ignored_cases self code :
  style_guide.is_user_ignored self code = style_guide.Ignored_Explicitly
  \/ style_guide.is_user_ignored self code = style_guide.Selected_Implicitly.
Proof.
  unfold style_guide.is_user_ignored. case_match; auto.
Qed.

(** Every branch of the decision assigns one. *)
Lemma decision_of_some self code d :
  decision_of self code = ret d -> d <> None.
Proof.
  unfold decision_of.
  pose proof (is_user_selected_cases self code) as Hs.
  destruct (is_user_ignored_cases self code) as [-> | ->];
    destruct (style_guide.is_user_selected self code); try congruence;
    try (intros [= <-]; discriminate).
  destruct (style_guide._decision_for self code); simpl;
    [discriminate|intros [= <-]; discriminate].
Qed.

Lemma reachable_cache_ok self : reachable self -> cache_ok self.
Proof.
  induction 1 as [options|self diffinfo _ IH|self code decision self' _ IH Hstep].
  - intros code d Hd. simpl in Hd. rewrite lookup_empty in Hd. discriminate.
  - exact IH.
  - rewrite should_report_error_unfold in Hstep.
    destruct (style_guide.cache_get _ code) as [d0|] eqn:Hget.
    + injection Hstep as <- <-. exact IH.
    + destruct (decision_of self code) as [e|d0] eqn:Hdec; [discriminate|].
      simpl in Hstep. injection Hstep as <- <-.
      intros code' d Hd. simpl in Hd.
      change (decision_of self code' = ret d).
      destruct (decide (code = code')) as [<-|Hne].
      * rewrite lookup_insert_eq in Hd. injection Hd as <-. exact Hdec.
      * rewrite lookup_insert_ne in Hd by assumption. apply IH. exact Hd.
Qed.

(** With a sound cache, the decision returned is the computed one. *)
Lemma should_report_error_decision self code d :
  cache_ok self ->
  decision_of self code = ret d ->
  exists self', style_guide.should_report_error self code = ret (d, self').
Proof.
  intros Hok Hdec. rewrite should_report_error_unfold.
  unfold style_guide.cache_get.
  destruct (style_guide._decision_cache self !! code) as [[d0|]|] eqn:Hc.
  - apply Hok in Hc. rewrite Hdec in Hc. injection Hc as ->. eauto.
  - apply Hok in Hc. apply decision_of_some in Hc. congruence.
  - rewrite Hdec. simpl. eauto.
Qed.

Lemma first_sorted_smallest (prefixes : list string) (code : string) :
  startswith_any code prefixes = true ->
  exists p,
    style_guide.first_sorted
      (filter (fun s => startswith code s = true) prefixes) = ret p
    /\ smallest_matching prefixes code p.
Proof.
  intros Hany. unfold startswith_any in Hany.
  apply existsb_exists in Hany as (q & Hq & Hstart).
  apply list_elem_of_In in Hq.
  assert (Hne : filter (fun s => startswith code s = true) prefixes <> []).
  { intros Hnil. eapply (filter_nil_not_elem_of _ _ q); eauto. }
  unfold style_guide.first_sorted.
  destruct (sorted String.ltb id (filter _ prefixes)) as [|p rest] eqn:Hs.
  - exfalso. revert Hs. apply sorted_nonempty. exact Hne.
  - exists p. split; [reflexivity|].
    destruct (sorted_head String.ltb id string_ltb_asym string_ltb_negtrans
                _ _ _ Hs) as [Hin Hmin].
    apply list_elem_of_filter in Hin as [Hp Hin].
    split; [exact Hin|]. split; [exact Hp|].
    intros q' Hq' Hstart'. apply Hmin.
    apply list_elem_of_filter. split; assumption.
Qed.

(** C5.  For a code that is explicitly selected and explicitly ignored,
    [should_report_error] takes the smallest matching selected prefix and
    the smallest matching ignored prefix, and answers [Selected] exactly
    when the selected one starts with the ignored one.  With select
    [E1] and ignore [E], [E123] is selected and [E9] is ignored. *)
Theorem should_report_error_tie_break (self : style_guide.StyleGuide) :
  reachable self ->
  (forall code : string,
     style_guide.is_user_selected self code = style_guide.Selected_Explicitly ->
     style_guide.is_user_ignored self code = style_guide.Ignored_Explicitly ->
     exists selected ignored self',
       smallest_matching (style_guide._selected self) code selected
       /\ smallest_matching (style_guide._ignored self) code ignored
       /\ style_guide.should_report_error self code
          = ret (Some (if startswith selected ignored
                       then style_guide.Decision_Selected
                       else style_guide.Decision_Ignored), self'))
  /\ (style_guide._selected self = ["E1"%string] ->
      style_guide._ignored self = ["E"%string] ->
      (exists self', style_guide.should_report_error self "E123"
                     = ret (Some style_guide.Decision_Selected, self'))
      /\ (exists self', style_guide.should_report_error self "E9"
                        = ret (Some style_guide.Decision_Ignored, self'))).
Proof.
  intros Hreach. apply reachable_cache_ok in Hreach. split.
  - intros code Hsel Hign.
    assert (Hs : startswith_any code (style_guide._selected self) = true).
    { unfold style_guide.is_user_selected in Hsel.
      destruct (bool_decide _) in Hsel; [discriminate|].
      destruct (startswith_any _ _); [reflexivity|discriminate]. }
    assert (Hi : startswith_any code (style_guide._ignored self) = true).
    { unfold style_guide.is_user_ignored in Hign.
      destruct (negb _) in Hign; [|discriminate]. simpl in Hign.
      destruct (startswith_any _ _); [reflexivity|discriminate]. }
    destruct (first_sorted_smallest _ _ Hs) as (selected & Hfs & Hsm).
    destruct (first_sorted_smallest _ _ Hi) as (ignored & Hfi & Him).
    destruct (should_report_error_decision self code
                (Some (if startswith selected ignored
                       then style_guide.Decision_Selected
                       else style_guide.Decision_Ignored)) Hreach)
      as [self' Hr].
    { unfold decision_of. rewrite Hsel, Hign.
      unfold style_guide._decision_for. rewrite Hfs, Hfi. simpl.
      destruct (startswith selected ignored); reflexivity. }
    exists selected, ignored, self'. auto.
  - intros Hsel Hign. split.
    + apply should_report_error_decision; [assumption|].
      unfold decision_of, style_guide.is_user_selected,
        style_guide.is_user_ignored, style_guide._decision_for.
      rewrite Hsel, Hign. reflexivity.
    + apply should_report_error_decision; [assumption|].
      unfold decision_of, style_guide.is_user_selected,
        style_guide.is_user_ignored, style_guide._decision_for.
      rewrite Hsel, Hign. reflexivity.
Qed.

Lemma should_report_error_tie_break_witness :
  (exists self', style_guide.should_report_error style_guide_E1_E "E123"
                 = ret (Some style_guide.Decision_Selected, self'))
  /\ (exists self', style_guide.should_report_error style_guide_E1_E "E9"
                    = ret (Some style_guide.Decision_Ignored, self')).
Proof.
  apply (proj2 (should_report_error_tie_break style_guide_E1_E
                  (reachable_init _))); reflexivity.
Defined.

(** The cache does not change an answer: after any earlier questions the
    second answer for a code is the first. *)
Example should_report_error_cached :
  exists self1 self2,
    style_guide.should_report_error style_guide_E1_E "E123"
    = ret (Some style_guide.Decision_Selected, self1)
    /\ style_guide.should_report_error self1 "E123"
       = ret (Some style_guide.Decision_Selected, self2)
    /\ self2 = self1.
Proof. eexists _, _. repeat split. Qed.

(** ** [StyleGuide.is_inline_ignored] *)

Lemma lower_idempotent (c : ascii) :
  style_guide.lower (style_guide.lower c) = style_guide.lower c.
Proof. destruct c as [[] [] [] [] [] [] [] []]; reflexivity. Qed.

Lemma lower_hash (c : ascii) : style_guide.lower c = hash -> c = hash.
Proof. destruct c as [[] [] [] [] [] [] [] []]; vm_compute; congruence. Qed.

Lemma has_hash_app (s t : string) :
  has_hash (s +:+ t) = has_hash s || has_hash t.
Proof.
  induction s as [|c s IH]; simpl; [reflexivity|].
  rewrite IH. apply orb_assoc.
Qed.

(** A literal of lower-case characters matches any casing of itself. *)
Lemma match_literal_lower (m rest : string) :
  style_guide.match_literal (lower_string m) (m +:+ rest) = Some rest.
Proof.
  induction m as [|c m IH]; simpl; [reflexivity|].
  rewrite lower_idempotent, Ascii.eqb_refl. exact IH.
Qed.

Lemma match_literal_cons (a c : ascii) (lit s : string) :
  style_guide.match_literal (String a lit) (String c s)
  = if Ascii.eqb (style_guide.lower a) (style_guide.lower c)
    then style_guide.match_literal lit s else None.
Proof. reflexivity. Qed.

Lemma search_cons (c : ascii) (s : string) :
  style_guide.NOQA_INLINE_REGEXP_search (String c s)
  = match style_guide.match_here (String c s) with
    | Some m => Some m
    | None => style_guide.NOQA_INLINE_REGEXP_search s
    end.
Proof. reflexivity. Qed.

(** What a literal without [#] matches has no [#] either. *)
Lemma match_literal_has_hash (lit s rest : string) :
  has_hash (lower_string lit) = false ->
  style_guide.match_literal lit s = Some rest ->
  has_hash s = has_hash rest.
Proof.
  revert s. induction lit as [|a lit IH]; intros s Hlit Hm; simpl in *.
  - injection Hm as ->. reflexivity.
  - destruct s as [|c s]; [discriminate|].
    apply orb_false_iff in Hlit as [Ha Hlit].
    destruct (Ascii.eqb_spec (style_guide.lower a) (style_guide.lower c))
      as [Heq|]; [|discriminate].
    simpl. rewrite (IH s Hlit Hm).
    destruct (Ascii.eqb_spec c hash) as [->|]; [|reflexivity].
    rewrite Heq in Ha. discriminate.
Qed.

Lemma at_dollar_has_hash (s : string) :
  style_guide.at_dollar s = true -> has_hash s = false.
Proof.
  destruct s as [|c [|c' s]]; simpl; try discriminate; [reflexivity|].
  intros Hc. apply Ascii.eqb_eq in Hc. subst. reflexivity.
Qed.

Lemma in_codes_class_not_hash (c : ascii) :
  style_guide.in_codes_class c = true -> Ascii.eqb c hash = false.
Proof.
  destruct (Ascii.eqb_spec c hash) as [->|]; [discriminate|reflexivity].
Qed.

Lemma match_codes_dollar_has_hash (s run : string) :
  style_guide.match_codes_dollar s = Some run -> has_hash s = false.
Proof.
  revert run. induction s as [|c s IH]; intros run; simpl; [discriminate|].
  destruct (style_guide.in_codes_class c) eqn:Hc; [|discriminate].
  rewrite (in_codes_class_not_hash c Hc). simpl.
  destruct (style_guide.match_codes_dollar s) as [run'|].
  - intros _. eapply IH. reflexivity.
  - destruct (style_guide.at_dollar s) eqn:Hd; [|discriminate].
    intros _. apply at_dollar_has_hash. exact Hd.
Qed.

Lemma match_group_dollar_has_hash (s : string) (g : option string) :
  style_guide.match_group_dollar s = Some g -> has_hash s = false.
Proof.
  unfold style_guide.match_group_dollar.
  destruct (style_guide.match_codes_dollar s) as [run|] eqn:Hrun.
  - intros _. eapply match_codes_dollar_has_hash. exact Hrun.
  - destruct (style_guide.at_dollar s) eqn:Hd; [|discriminate].
    intros _. apply at_dollar_has_hash. exact Hd.
Qed.

(** A match holds no [#] after its first character. *)
Lemma match_here_has_hash (c : ascii) (s : string) (g : option string) :
  style_guide.match_here (String c s) = Some g -> has_hash s = false.
Proof.
  unfold style_guide.match_here.
  destruct (style_guide.match_literal "# noqa" (String c s)) as [rest|] eqn:Hlit;
    [|discriminate].
  rewrite match_literal_cons in Hlit.
  destruct (Ascii.eqb _ _) in Hlit; [|discriminate].
  apply match_literal_has_hash in Hlit; [|reflexivity]. rewrite Hlit.
  destruct (style_guide.match_literal ": " rest) as [rest'|] eqn:Hcolon.
  - apply match_literal_has_hash in Hcolon; [|reflexivity]. rewrite Hcolon.
    destruct (style_guide.match_group_dollar rest') as [g'|] eqn:Hg.
    + intros _. eapply match_group_dollar_has_hash. exact Hg.
    + intros Hg'. apply match_group_dollar_has_hash in Hg'.
      rewrite <- Hcolon. exact Hg'.
  - intros Hg. eapply match_group_dollar_has_hash. exact Hg.
Qed.

(** The search finds a match that starts at a [#], whatever stands before
    it: no match starts earlier. *)
Lemma search_finds (before tail : string) (g : option string) :
  style_guide.match_here (String hash tail) = Some g ->
  style_guide.NOQA_INLINE_REGEXP_search (before +:+ String hash tail) = Some g.
Proof.
  intros Hm. induction before as [|c before IH].
  - change (EmptyString +:+ String hash tail) with (String hash tail).
    rewrite search_cons, Hm. reflexivity.
  - change (String c before +:+ String hash tail)
      with (String c (before +:+ String hash tail)).
    rewrite search_cons.
    destruct (style_guide.match_here (String c (before +:+ String hash tail)))
      as [g'|] eqn:Hearly; [|exact IH].
    apply match_here_has_hash in Hearly.
    rewrite has_hash_app in Hearly.
    change (has_hash (String hash tail)) with true in Hearly.
    rewrite orb_true_r in Hearly. discriminate.
Qed.

Lemma noqa_marker_head (marker : string) :
  lower_string marker = "# noqa"%string ->
  exists tail, marker = String hash tail.
Proof.
  destruct marker as [|c tail]; [discriminate|]. simpl.
  intros [= Hc _]. apply lower_hash in Hc. subst. eauto.
Qed.

Lemma match_here_bare (marker eol : string) :
  lower_string marker = "# noqa"%string -> is_line_end eol ->
  style_guide.match_here (marker +:+ eol) = Some None.
Proof.
  intros Hm Heol. unfold style_guide.match_here.
  rewrite <- Hm, match_literal_lower.
  destruct Heol as [-> | ->]; reflexivity.
Qed.

Lemma match_codes_dollar_run (codes eol : string) :
  codes <> EmptyString -> all_in_codes_class codes = true -> is_line_end eol ->
  style_guide.match_codes_dollar (codes +:+ eol) = Some codes.
Proof.
  intros Hne Hall Heol. induction codes as [|c codes IH]; [congruence|].
  simpl in Hall. apply andb_true_iff in Hall as [Hc Hall].
  change (String c codes +:+ eol) with (String c (codes +:+ eol)).
  simpl. rewrite Hc. destruct codes as [|c' codes].
  - destruct Heol as [-> | ->]; reflexivity.
  - rewrite IH; [reflexivity|discriminate|exact Hall].
Qed.

Lemma match_here_codes (marker codes eol : string) :
  lower_string marker = "# noqa"%string ->
  codes <> EmptyString -> all_in_codes_class codes = true -> is_line_end eol ->
  style_guide.match_here (marker +:+ ": " +:+ codes +:+ eol) = Some (Some codes).
Proof.
  intros Hm Hne Hall Heol. unfold style_guide.match_here.
  rewrite <- Hm, match_literal_lower.
  change (style_guide.match_literal ": " (": " +:+ codes +:+ eol))
    with (Some (codes +:+ eol)).
  unfold style_guide.match_group_dollar.
  rewrite match_codes_dollar_run by assumption. reflexivity.
Qed.

Lemma startswith_any_true (s : string) (ps : list string) :
  startswith_any s ps = true <-> exists p, p ∈ ps /\ startswith s p = true.
Proof.
  unfold startswith_any. rewrite existsb_exists.
  split; intros (p & Hp & Hs); exists p; split; try assumption;
    apply list_elem_of_In; assumption.
Qed.

(** C6, as the code has it.  With [disable_noqa] set nothing is ignored
    inline.  Otherwise the line of the error (its physical line, or what
    [linecache.getline] gives when it has none) is searched for the
    pattern.  The pattern asks for the marker, which is a hash, one blank
    and [noqa] in any letter case, and then, up to the end of the line
    (the end of the string, or one newline before it), for nothing more,
    or for a colon, one blank and a list made of letters, digits and
    commas only.  An error whose line ends in the bare marker is ignored
    whatever its code.  When the line ends in the marker, [: ] and such a
    list, the error is ignored exactly when its code is one of the codes
    that [utils.parse_comma_separated_list] takes from the list, or
    starts with one.  On a line ending in [# noqa: E501,W291], [E501] is
    ignored and [E302] is not.  A list with any other character in it is
    no list for the pattern: on a line ending in [# noqa: E501, W291]
    nothing is ignored, not even [E501]. *)
Theorem is_inline_ignored_spec
    (utils : style_guide.Utils) (getline : option string -> Z -> string)
    (self : style_guide.StyleGuide) (error : style_guide.Error) :
  (style_guide.disable_noqa (style_guide.options self) = true ->
   style_guide.is_inline_ignored utils getline self error = false)
  /\ (style_guide.disable_noqa (style_guide.options self) = false ->
      (forall before marker eol : string,
         line_of getline error = before +:+ marker +:+ eol ->
         lower_string marker = "# noqa"%string -> is_line_end eol ->
         style_guide.is_inline_ignored utils getline self error = true)
      /\ (forall before marker codes_str eol : string,
            line_of getline error
            = before +:+ marker +:+ ": " +:+ codes_str +:+ eol ->
            lower_string marker = "# noqa"%string ->
            codes_str <> EmptyString ->
            all_in_codes_class codes_str = true ->
            is_line_end eol ->
            let codes := style_guide.parse_comma_separated_list utils codes_str in
            style_guide.is_inline_ignored utils getline self error = true
            <-> (style_guide.code error ∈ codes
                 \/ exists listed, listed ∈ codes
                      /\ startswith (style_guide.code error) listed = true)))
  /\ (let sg := style_guide.__init__ (options_noqa false) in
      let line := "x = 1  # noqa: E501,W291"%string in
      style_guide.is_inline_ignored utils_model getline sg
        (error_on_line "E501" line) = true
      /\ style_guide.is_inline_ignored utils_model getline sg
           (error_on_line "E302" line) = false
      /\ style_guide.is_inline_ignored utils_model getline sg
           (error_on_line "E501" "x = 1  # noqa: E501, W291") = false).
Proof.
  split; [|split].
  - unfold style_guide.is_inline_ignored. intros ->. reflexivity.
  - intros Hon. split.
    + intros before marker eol Hline Hm Heol.
      unfold style_guide.is_inline_ignored. rewrite Hon.
      fold (line_of getline error). rewrite Hline.
      destruct (noqa_marker_head marker Hm) as [tail ->].
      change (String hash tail +:+ eol) with (String hash (tail +:+ eol)).
      rewrite (search_finds before (tail +:+ eol) None); [reflexivity|].
      apply (match_here_bare (String hash tail) eol Hm Heol).
    + intros before marker codes_str eol Hline Hm Hne Hall Heol codes.
      unfold style_guide.is_inline_ignored. rewrite Hon.
      fold (line_of getline error). rewrite Hline.
      destruct (noqa_marker_head marker Hm) as [tail ->].
      change (String hash tail +:+ ": " +:+ codes_str +:+ eol)
        with (String hash (tail +:+ ": " +:+ codes_str +:+ eol)).
      rewrite (search_finds before _ (Some codes_str));
        [|apply (match_here_codes (String hash tail) codes_str eol); assumption].
      fold codes. rewrite orb_true_iff, bool_decide_eq_true, startswith_any_true.
      reflexivity.
  - vm_compute. repeat split.
Qed.

Lemma is_inline_ignored_spec_witness :
  style_guide.is_inline_ignored utils_model (fun _ _ => EmptyString)
    (style_guide.__init__ (options_noqa false))
    (error_on_line "W605" "import os  # NoQA") = true
  /\ (let codes :=
        style_guide.parse_comma_separated_list utils_model "E5,W291" in
      style_guide.is_inline_ignored utils_model (fun _ _ => EmptyString)
        (style_guide.__init__ (options_noqa false))
        (error_on_line "E501" "x = 1  # NoQA: E5,W291") = true
      <-> ("E501"%string ∈ codes
           \/ exists listed, listed ∈ codes
                /\ startswith "E501" listed = true)).
Proof.
  split.
  - apply (proj1 (proj1 (proj2 (is_inline_ignored_spec utils_model
                                  (fun _ _ => EmptyString)
                                  (style_guide.__init__ (options_noqa false))
                                  (error_on_line "W605" "import os  # NoQA")))
                    eq_refl)
             "import os  "%string "# NoQA"%string EmptyString).
    + reflexivity.
    + reflexivity.
    + left. reflexivity.
  - apply (proj2 (proj1 (proj2 (is_inline_ignored_spec utils_model
                                  (fun _ _ => EmptyString)
                                  (style_guide.__init__ (options_noqa false))
                                  (error_on_line "E501"
                                     "x = 1  # NoQA: E5,W291")))
                    eq_refl)
             "x = 1  "%string "# NoQA"%string "E5,W291"%string EmptyString).
    + reflexivity.
    + reflexivity.
    + discriminate.
    + reflexivity.
    + left. reflexivity.
Defined.

(** The claim as first stated does not hold of every list of codes.  In
    [# noqa: E501, W291] a blank follows the comma: [E501] is the first
    code of the list, the pattern does not match the line, and [E501] is
    not ignored. *)
Lemma is_inline_ignored_list_with_blank :
  let line := "x = 1  # noqa: E501, W291"%string in
  "E501"%string
    ∈ style_guide.parse_comma_separated_list utils_model "E501, W291"
  /\ style_guide.NOQA_INLINE_REGEXP_search line = None
  /\ style_guide.is_inline_ignored utils_model (fun _ _ => EmptyString)
       (style_guide.__init__ (options_noqa false))
       (error_on_line "E501" line) <> true.
Proof.
  split; [left|]. split; [reflexivity|]. vm_compute. discriminate.
Qed.

(** ** [FileChecker.run_ast_checks] on a tree that cannot be built *)

Lemma report_bound (self : FileChecker) (p : FileProcessor)
    (error_code : string) (line column : Z) (text : string) :
  processor self = Some (Some p) ->
  report (Some error_code) line column text self
  = (ret error_code,
     set_results self
       (results self ++ [(error_code, line, column, text, line_for p line)])).
Proof.
  intros Hp. unfold report, mbind, lift, get_processor. simpl.
  rewrite Hp. reflexivity.
Qed.



(** A [ValueError] with a message alone is reported at (1, 0); and when
    the tree is built, the plugins run and nothing is reported as E999. *)
Example run_ast_checks_cases :
  let null_bytes :=
    mkFileProcessor (fun _ => None)
      (raise (Exception ValueError [PStr "source code string cannot contain null bytes"]))
      false in
  let fine := mkFileProcessor (fun _ => None) (ret (Tree 0)) false in
  let checker p :=
    mkFileChecker "a.py" [plugin_example] (options_noqa false) []
                  (Some (Some p)) [] in
  (run_ast_checks builtins_example (checker null_bytes)).2
  = mkFileChecker "a.py" [plugin_example] (options_noqa false)
      [("E999"%string, 1, 0,
        "ValueError: source code string cannot contain null bytes"%string, None)]
      (Some (Some null_bytes)) []
  /\ (run_ast_checks builtins_example (checker fine)).2
     = mkFileChecker "a.py" [plugin_example] (options_noqa false)
         [("E1"%string, 2, 0, "first"%string, None);
          ("E2"%string, 1, 5, "second"%string, None)]
         (Some (Some fine)) ["C90"%string].
Proof. split; reflexivity. Qed.

(** ** [FileChecker.__init__] on a file that cannot be read *)

(** While [processor] is not bound to a processor, [report] raises
    [AttributeError] and the results stay as they are. *)
Lemma report_without_processor (self : FileChecker)
    (error_code : string) (line column : Z) (text : string) :
  processor self = None \/ processor self = Some None ->
  exists e,
    report (Some error_code) line column text self = (raise e, self)
    /\ exc_type e = AttributeError.
Proof.
  intros Hp. unfold report, mbind, lift, get_processor. simpl.
  destruct Hp as [-> | ->]; eexists; split; reflexivity.
Qed.

(** C4 on the code.  The constructor on a file whose [FileProcessor]
    cannot be made for an [IOError]: the handler calls [report] before [processor] is bound, so
    the constructor raises [AttributeError]; no checker, and no [E902]
    entry, comes out of it. *)
Theorem init_unreadable_raises
    (pm : ProcessorModule) (b : Builtins) (name : string)
    (checks : list Plugin) (options : style_guide.Options) (e : exception) :
  FileProcessor_new pm name options = inl e ->
  issubclass (exc_type e) IOError = true ->
  raises (__init__ pm b name checks options) AttributeError
  /\ forall self, __init__ pm b name checks options <> ret self.
Proof.
  intros Hnew Hio. unfold __init__, _make_processor. simpl.
  rewrite Hnew, Hio. unfold mbind.
  destruct (report_without_processor
              (mkFileChecker name checks options [] None [])
              "E902" 0 0
              (class_name (exc_type e) +:+ ": " +:+ str_exception b e))
    as (e' & -> & Htype); [left; reflexivity|].
  simpl. split; [exact Htype|discriminate].
Qed.

Lemma init_unreadable_raises_witness :
  raises (__init__ processor_module_missing builtins_example "missing.py" []
            (options_noqa false)) AttributeError
  /\ forall self,
       __init__ processor_module_missing builtins_example "missing.py" []
         (options_noqa false) <> ret self.
Proof.
  exact (init_unreadable_raises processor_module_missing builtins_example
           "missing.py" [] (options_noqa false) _ eq_refl eq_refl).
Defined.

(** A checker whose [processor] is [None], the value [_make_processor]
    means to return for an unreadable file, cannot run its checks
    either. *)
Lemma run_checks_without_processor (b : Builtins) (process_tokens : M unit)
    (results_queue : bool) (self : FileChecker) :
  processor self = Some None ->
  exists e,
    run_checks b process_tokens results_queue self = (raise e, self)
    /\ exc_type e = AttributeError.
Proof.
  intros Hp. unfold run_checks, mbind, get_processor. rewrite Hp.
  eexists. split; reflexivity.
Qed.

(** ** The order of the reports *)

Section PairOrder.
Context {A B : Type} `{EqDecision A}.
Context (ltA : A -> A -> bool) (ltB : B -> B -> bool).
Hypothesis ltA_asym : forall a b, ltA a b = true -> ltA b a = false.
Hypothesis ltA_negtrans :
  forall a b c, ltA a c = true -> ltA a b = true \/ ltA b c = true.
Hypothesis ltA_total : forall a b, a <> b -> ltA a b = true \/ ltA b a = true.
Hypothesis ltB_asym : forall a b, ltB a b = true -> ltB b a = false.
Hypothesis ltB_negtrans :
  forall a b c, ltB a c = true -> ltB a b = true \/ ltB b c = true.

Lemma ltA_irrefl (a : A) : ltA a a = false.
Proof.
  destruct (ltA a a) eqn:E; [|reflexivity].
  rewrite (ltA_asym _ _ E) in E. discriminate.
Qed.

Lemma pair_ltb_asym (x y : A * B) :
  pair_ltb ltA ltB x y = true -> pair_ltb ltA ltB y x = false.
Proof using ltA_asym ltB_asym.
  unfold pair_ltb. destruct x as [x1 x2], y as [y1 y2]. simpl.
  repeat case_bool_decide; subst; try congruence; auto.
Qed.

Lemma pair_ltb_negtrans (x y z : A * B) :
  pair_ltb ltA ltB x z = true ->
  pair_ltb ltA ltB x y = true \/ pair_ltb ltA ltB y z = true.
Proof using All.
  unfold pair_ltb. destruct x as [x1 x2], y as [y1 y2], z as [z1 z2]. simpl.
  repeat case_bool_decide; subst; try congruence; auto.
Qed.

End PairOrder.

Lemma Z_ltb_asym (a b : Z) : (a <? b) = true -> (b <? a) = false.
Proof. rewrite Z.ltb_lt, Z.ltb_ge. lia. Qed.

Lemma Z_ltb_negtrans (a b c : Z) :
  (a <? c) = true -> (a <? b) = true \/ (b <? c) = true.
Proof. rewrite !Z.ltb_lt. lia. Qed.

Lemma Z_ltb_total (a b : Z) : a <> b -> (a <? b) = true \/ (b <? a) = true.
Proof. rewrite !Z.ltb_lt. lia. Qed.

Lemma lt_Z_Z_false (x y : Z * Z) : lt_Z_Z y x = false -> position_le x y.
Proof.
  unfold lt_Z_Z, pair_ltb, position_le. destruct x as [x1 x2], y as [y1 y2].
  simpl. case_bool_decide; subst.
  - rewrite Z.ltb_ge. lia.
  - rewrite Z.ltb_ge. lia.
Qed.

(** The sort of [_report_after_parallel] puts the entries of a file in
    the order of their positions. *)
Lemma parallel_sort_nondecreasing (name : string) (rs : list ErrorTuple) :
  nondecreasing (map (handle_error_call name) (sorted lt_Z_Z key_parallel rs)).
Proof.
  pose proof (sorted_ordered lt_Z_Z key_parallel
                (pair_ltb_asym _ _ Z_ltb_asym Z_ltb_asym)
                (pair_ltb_negtrans _ _ Z_ltb_asym Z_ltb_negtrans Z_ltb_total
                   Z_ltb_asym Z_ltb_negtrans) rs) as Hs.
  apply StronglySorted_Sorted.
  induction Hs as [|x l Hl IH Hx]; simpl; constructor.
  - exact IH.
  - rewrite Forall_map. eapply Forall_impl; [exact Hx|].
    intros y Hy. apply lt_Z_Z_false in Hy.
    destruct x as [[[[c1 l1] k1] t1] p1], y as [[[[c2 l2] k2] t2] p2].
    exact Hy.
Qed.


(** C1 on the code.  A serial run over one file with an entry at line 1,
    column 80 and an entry at line 2, column 0: [report] hands the entry
    of line 2 to the style guide before the entry of line 1, the sort
    key of [_report_after_serial] being [(tup[2], tup[3])], the column
    and the text. *)
Theorem report_after_serial_goes_back :
  let manager := mkManager 0 false [checker_with "a.py" results_two_lines] in
  Manager_report manager
  = [style_guide.mkError "E303" (Some "a.py"%string) 2 0 "too many blank lines" None;
     style_guide.mkError "E501" (Some "a.py"%string) 1 80 "line too long" None]
  /\ ~ nondecreasing (Manager_report manager).
Proof.
  split; [reflexivity|].
  intros Hs. inversion Hs as [|? ? _ Hhd]; subst.
  inversion Hhd as [|? ? Hle]; subst.
  unfold position_le, position in Hle. simpl in Hle. lia.
Qed.

(** ** The results queue and its sentinels *)

Lemma count_done_nonneg (queue : list QueueItem) : 0 <= count_done queue.
Proof. induction queue as [|[] queue IH]; simpl; lia. Qed.

Lemma count_done_app (q1 q2 : list QueueItem) :
  count_done (q1 ++ q2) = count_done q1 + count_done q2.
Proof. induction q1 as [|[] q1 IH]; simpl; lia. Qed.

Lemma total_done_app (o1 o2 : list (list QueueItem)) :
  total_done (o1 ++ o2) = total_done o1 + total_done o2.
Proof. unfold total_done. induction o1 as [|o o1 IH]; simpl; lia. Qed.

(** The queue holds as many sentinels as the workers put. *)
Lemma interleaving_count_done (outputs : list (list QueueItem))
    (queue : list QueueItem) :
  interleaving outputs queue -> count_done queue = total_done outputs.
Proof.
  induction 1 as [outputs Hall|before after x l q _ IH].
  - induction Hall as [|o outputs -> _ IH]; [reflexivity|].
    unfold total_done in *. simpl in *. lia.
  - rewrite total_done_app in *. unfold total_done in *. simpl in *.
    destruct x; simpl; lia.
Qed.

(** While fewer than [jobs] sentinels are to come, [_results] never
    ends: it yields every item and then waits. *)
Lemma results_from_blocked (jobs seen_done : Z) (queue : list QueueItem) :
  seen_done + count_done queue < jobs ->
  _results_from jobs seen_done queue = Blocked (items_of queue).
Proof.
  revert seen_done. induction queue as [|[name rs|] queue IH];
    intros seen_done Hlt; simpl in *.
  - reflexivity.
  - rewrite IH by assumption. reflexivity.
  - destruct (Z.leb_spec jobs (seen_done + 1)) as [Hle|_].
    + pose proof (count_done_nonneg queue). lia.
    + apply IH. lia.
Qed.

(** [_results] ends at the sentinel that brings the count to [jobs]
    (at the first one when [jobs] is reached already): it has yielded
    the items before that sentinel and reads nothing after it. *)
Lemma results_from_concluded (jobs seen_done : Z) (before after : list QueueItem) :
  count_done before = Z.max 0 (jobs - seen_done - 1) ->
  _results_from jobs seen_done (before ++ DONE :: after)
  = Concluded (items_of before) after.
Proof.
  revert seen_done. induction before as [|[name rs|] before IH];
    intros seen_done Hcount; simpl in *.
  - destruct (Z.leb_spec jobs (seen_done + 1)) as [_|Hlt]; [reflexivity|lia].
  - rewrite IH by assumption. reflexivity.
  - pose proof (count_done_nonneg before).
    destruct (Z.leb_spec jobs (seen_done + 1)) as [Hle|_]; [lia|].
    apply IH. lia.
Qed.

Lemma results_from_concluded_witness :
  _results_from 2 0
    ([Item "a.py" results_two_lines; DONE; Item "b.py" []]
     ++ DONE :: [Item "c.py" []])
  = Concluded
      (items_of [Item "a.py" results_two_lines; DONE; Item "b.py" []])
      [Item "c.py" []].
Proof.
  apply (results_from_concluded 2 0
           [Item "a.py" results_two_lines; DONE; Item "b.py" []]
           [Item "c.py" []]).
  reflexivity.
Defined.

(** What one call of [run_checks] puts on the queue is no sentinel. *)
Lemma run_checks_puts (b : Builtins) (process_tokens : M unit)
    (self self' : FileChecker) (put : list QueueItem) :
  run_checks b process_tokens true self = (inr put, self') ->
  count_done put = 0.
Proof.
  unfold run_checks, mbind, mret. intros H.
  repeat case_match; simplify_eq; reflexivity.
Qed.

(** A worker that ends puts exactly one sentinel. *)
Lemma worker_puts_one_sentinel (b : Builtins) (process_tokens : M unit)
    (taken : list FileChecker) (out : list QueueItem) :
  _run_checks_from_queue b process_tokens taken = (out, ret tt) ->
  count_done out = 1.
Proof.
  revert out. induction taken as [|checker taken IH]; intros out; simpl.
  - intros [= <-]. reflexivity.
  - destruct (run_checks b process_tokens true checker) as [[e|put] self'] eqn:Hrun;
      [discriminate|].
    destruct (_run_checks_from_queue b process_tokens taken) as [rest [e|[]]];
      [discriminate|].
    intros [= <-]. rewrite count_done_app.
    rewrite (run_checks_puts _ _ _ _ _ Hrun), (IH rest eq_refl). reflexivity.
Qed.

(** C3 on the code.  [run_parallel] starts [jobs - 1] workers, each of
    which puts one sentinel; [_results] ends only at the sentinel that
    makes [seen_done >= jobs].  So with everything the workers ever put
    on the queue the reporter has seen [jobs - 1] sentinels, as many as
    there are workers, and still waits: the collection does not end and
    nothing is reported. *)
Theorem results_never_conclude
    (self : Manager) (b : Builtins) (process_tokens : M unit)
    (taken : list (list FileChecker)) (outputs : list (list QueueItem))
    (queue : list QueueItem) :
  1 < jobs self ->
  length taken = run_parallel_workers self ->
  Forall2 (fun t out =>
             _run_checks_from_queue b process_tokens t = (out, ret tt))
    taken outputs ->
  interleaving outputs queue ->
  count_done queue = Z.of_nat (run_parallel_workers self)
  /\ _results self queue = Blocked (items_of queue)
  /\ _report_after_parallel self queue = None.
Proof.
  intros Hjobs Hlen Hout Hinter.
  assert (Hdone : count_done queue = Z.of_nat (run_parallel_workers self)).
  { rewrite (interleaving_count_done _ _ Hinter), <- Hlen. clear -Hout.
    induction Hout as [|t out taken outputs Hw _ IH]; [reflexivity|].
    unfold total_done in *. simpl length. simpl foldr.
    rewrite IH, (worker_puts_one_sentinel _ _ _ _ Hw). lia. }
  assert (Hblocked : _results self queue = Blocked (items_of queue)).
  { apply results_from_blocked. rewrite Hdone. unfold run_parallel_workers. lia. }
  split; [exact Hdone|]. split; [exact Hblocked|].
  unfold _report_after_parallel. rewrite Hblocked. reflexivity.
Qed.

Lemma results_never_conclude_witness :
  count_done [Item "a.py" results_two_lines; DONE]
  = Z.of_nat (run_parallel_workers manager_two_jobs)
  /\ _results manager_two_jobs [Item "a.py" results_two_lines; DONE]
     = Blocked (items_of [Item "a.py" results_two_lines; DONE])
  /\ _report_after_parallel manager_two_jobs
       [Item "a.py" results_two_lines; DONE] = None.
Proof.
  apply (results_never_conclude manager_two_jobs builtins_example (mret tt)
           [[checker_with "a.py" results_two_lines]]
           [[Item "a.py" results_two_lines; DONE]]).
  - reflexivity.
  - reflexivity.
  - repeat constructor.
  - apply (interleaving_step [] []). apply (interleaving_step [] []).
    apply interleaving_done. repeat constructor.
Defined.

(** ** A serial run and a run with two jobs *)

(** C2 on the code.  One file, [a.py], for which a plugin reports an
    error at line 2, column 0 and then one at line 1, column 5.  With
    [--jobs 0] the run is serial and reports line 2 before line 1.  With
    [--jobs 2] there is one worker; it puts the results of [a.py] and one
    sentinel on the queue, the reporter waits for a second sentinel, and
    nothing is reported; had a second sentinel come, the report would
    have been line 1 before line 2. *)
Theorem serial_and_parallel_reports_differ :
  exists (serial parallel : Manager) (cs cs' : list FileChecker)
         (queue : list QueueItem),
    Manager__init__ multiprocessing_example utils_model [] (options_jobs "0")
    = ret serial
    /\ using_multiprocessing serial = false
    /\ Manager__init__ multiprocessing_example utils_model [] (options_jobs "2")
       = ret parallel
    /\ using_multiprocessing parallel = true
    /\ run_parallel_workers parallel = 1%nat
    /\ make_checkers processor_module_fine builtins_example ["a.py"%string]
         [plugin_example] (options_jobs "0") = ret cs
    /\ run_serial builtins_example (mret tt) (set_checkers serial cs)
       = ret (set_checkers serial cs')
    /\ Manager_report (set_checkers serial cs')
       = [style_guide.mkError "E1" (Some "a.py"%string) 2 0 "first" None;
          style_guide.mkError "E2" (Some "a.py"%string) 1 5 "second" None]
    /\ _run_checks_from_queue builtins_example (mret tt) cs = (queue, ret tt)
    /\ _report_after_parallel (set_checkers parallel cs) queue = None
    /\ _report_after_parallel (set_checkers parallel cs) (queue ++ [DONE])
       = Some
           [style_guide.mkError "E2" (Some "a.py"%string) 1 5 "second" None;
            style_guide.mkError "E1" (Some "a.py"%string) 2 0 "first" None].
Proof.
  eexists _, _, _, _, _.
  repeat (split; [vm_compute; reflexivity|]).
  vm_compute. reflexivity.
Qed.

(** ** More on [StyleGuide.should_report_error] *)

Lemma reachable_options self :
  reachable self ->
  style_guide._selected self = style_guide.select (style_guide.options self)
  /\ style_guide._ignored self = style_guide.ignore (style_guide.options self).
Proof.
  induction 1 as [options|self diffinfo _ IH|self code decision self' _ IH Hstep].
  - split; reflexivity.
  - exact IH.
  - rewrite should_report_error_unfold in Hstep.
    destruct (style_guide.cache_get _ code); [injection Hstep as <- <-; exact IH|].
    destruct (decision_of self code); [discriminate|].
    simpl in Hstep. injection Hstep as <- <-. exact IH.
Qed.

Lemma decision_of_total self code :
  exists d, decision_of self code = ret (Some d).
Proof.
  unfold decision_of.
  destruct (style_guide.is_user_selected self code) eqn:Hsel;
    destruct (style_guide.is_user_ignored self code) eqn:Hign; eauto;
    try (exfalso; destruct (is_user_ignored_cases self code); congruence);
    try (exfalso; apply (is_user_selected_cases self code); assumption).
  assert (Hs : startswith_any code (style_guide._selected self) = true).
  { unfold style_guide.is_user_selected in Hsel.
    destruct (bool_decide _) in Hsel; [discriminate|].
    destruct (startswith_any _ _); [reflexivity|discriminate]. }
  assert (Hi : startswith_any code (style_guide._ignored self) = true).
  { unfold style_guide.is_user_ignored in Hign.
    destruct (negb _) in Hign; [|discriminate]. simpl in Hign.
    destruct (startswith_any _ _); [reflexivity|discriminate]. }
  destruct (first_sorted_smallest _ _ Hs) as (selected & Hfs & _).
  destruct (first_sorted_smallest _ _ Hi) as (ignored & Hfi & _).
  unfold style_guide._decision_for. rewrite Hfs, Hfi. simpl.
  destruct (startswith selected ignored); eauto.
Qed.

Lemma should_report_error_inv self code d self' :
  cache_ok self ->
  style_guide.should_report_error self code = ret (d, self') ->
  decision_of self code = ret d
  /\ style_guide.cache_get (style_guide._decision_cache self') code = d
  /\ style_guide._selected self' = style_guide._selected self
  /\ style_guide._ignored self' = style_guide._ignored self
  /\ style_guide._parsed_diff self' = style_guide._parsed_diff self
  /\ style_guide.options self' = style_guide.options self.
Proof.
  intros Hok Hstep. rewrite should_report_error_unfold in Hstep.
  unfold style_guide.cache_get in *.
  destruct (style_guide._decision_cache self !! code) as [[d0|]|] eqn:Hc.
  - injection Hstep as <- <-. rewrite Hc. apply Hok in Hc. auto 10.
  - destruct (decision_of self code) as [e|d0] eqn:Hdec; [discriminate|].
    apply Hok in Hc. rewrite Hdec in Hc. injection Hc as ->.
    simpl in Hstep. injection Hstep as <- <-. simpl.
    rewrite lookup_insert_eq. auto 10.
  - destruct (decision_of self code) as [e|d0] eqn:Hdec; [discriminate|].
    simpl in Hstep. injection Hstep as <- <-. simpl.
    rewrite lookup_insert_eq. auto 10.
Qed.

(** [should_report_error] never raises and never answers [None]: on every
    style guide of a run and for every code it returns [Selected] or
    [Ignored]; in particular the [sorted(...)[0]] of [_decision_for] is
    never taken of an empty list. *)
Theorem should_report_error_total (self : style_guide.StyleGuide) (code : string) :
  reachable self ->
  exists d self',
    style_guide.should_report_error self code = ret (Some d, self')
    /\ reachable self'.
Proof.
  intros Hreach. destruct (decision_of_total self code) as [d Hd].
  destruct (should_report_error_decision self code (Some d)
              (reachable_cache_ok self Hreach) Hd) as [self' Hr].
  exists d, self'. split; [exact Hr|].
  eapply reachable_should_report; eassumption.
Qed.

Lemma should_report_error_total_witness :
  exists d self',
    style_guide.should_report_error style_guide_E1_E "W605" = ret (Some d, self')
    /\ reachable self'.
Proof.
  exact (should_report_error_total style_guide_E1_E "W605" (reachable_init _)).
Defined.

(** The decision is memoized: asked again for the same code, the style
    guide gives the same answer and is left as it is. *)
Theorem should_report_error_memoized
    (self self' : style_guide.StyleGuide) (code : string)
    (d : option style_guide.Decision) :
  reachable self ->
  style_guide.should_report_error self code = ret (d, self') ->
  style_guide.should_report_error self' code = ret (d, self').
Proof.
  intros Hreach Hstep.
  destruct (should_report_error_inv self code d self'
              (reachable_cache_ok self Hreach) Hstep) as (Hdec & Hget & _).
  pose proof (decision_of_some _ _ _ Hdec) as Hsome.
  rewrite should_report_error_unfold, Hget.
  destruct d as [d|]; [reflexivity|congruence].
Qed.

Lemma should_report_error_memoized_witness :
  style_guide.should_report_error
    (style_guide.set_decision_cache style_guide_E1_E
       (<["E123"%string := Some style_guide.Decision_Selected]> ∅)) "E123"
  = ret (Some style_guide.Decision_Selected,
         style_guide.set_decision_cache style_guide_E1_E
           (<["E123"%string := Some style_guide.Decision_Selected]> ∅)).
Proof.
  apply (should_report_error_memoized style_guide_E1_E _ "E123"
           (Some style_guide.Decision_Selected) (reachable_init _)).
  reflexivity.
Defined.

(** The cache never changes an answer: whatever was asked before, the
    decision for a code is the one a style guide fresh from [__init__]
    with the same options gives. *)
Theorem should_report_error_history_free
    (self self' : style_guide.StyleGuide) (code : string)
    (d : option style_guide.Decision) :
  reachable self ->
  style_guide.should_report_error self code = ret (d, self') ->
  exists fresh',
    style_guide.should_report_error
      (style_guide.__init__ (style_guide.options self)) code = ret (d, fresh').
Proof.
  intros Hreach Hstep.
  destruct (should_report_error_inv self code d self'
              (reachable_cache_ok self Hreach) Hstep) as (Hdec & _).
  destruct (reachable_options self Hreach) as [Hsel Hign].
  apply should_report_error_decision.
  - apply reachable_cache_ok. constructor.
  - rewrite <- Hdec.
    unfold decision_of, style_guide.is_user_selected,
      style_guide.is_user_ignored, style_guide._decision_for.
    simpl. rewrite <- Hsel, <- Hign. reflexivity.
Qed.

Lemma should_report_error_history_free_witness :
  exists fresh',
    style_guide.should_report_error
      (style_guide.__init__
         (style_guide.options
            (style_guide.add_diff_ranges style_guide_E1_E diff_table_example)))
      "E9"
    = ret (Some style_guide.Decision_Ignored, fresh').
Proof.
  eapply should_report_error_history_free
    with (self := style_guide.add_diff_ranges style_guide_E1_E diff_table_example).
  - apply reachable_add_diff_ranges. apply reachable_init.
  - reflexivity.
Defined.

(** Outside the tie: a code that no ignored prefix matches is selected
    exactly when the select list is empty or one of its prefixes matches;
    a code that an ignored prefix matches and no selected prefix matches
    is ignored.  So with both lists empty every code is selected. *)
Theorem should_report_error_table
    (self self' : style_guide.StyleGuide) (code : string)
    (d : option style_guide.Decision) :
  reachable self ->
  style_guide.should_report_error self code = ret (d, self') ->
  (startswith_any code (style_guide._ignored self) = false ->
   (d = Some style_guide.Decision_Selected
    <-> (style_guide._selected self = []
         \/ startswith_any code (style_guide._selected self) = true))
   /\ (d = Some style_guide.Decision_Ignored
       <-> (style_guide._selected self <> []
            /\ startswith_any code (style_guide._selected self) = false)))
  /\ (startswith_any code (style_guide._ignored self) = true ->
      startswith_any code (style_guide._selected self) = false ->
      d = Some style_guide.Decision_Ignored).
Proof.
  intros Hreach Hstep.
  destruct (should_report_error_inv self code d self'
              (reachable_cache_ok self Hreach) Hstep) as (Hdec & _).
  unfold decision_of, style_guide.is_user_selected,
    style_guide.is_user_ignored in Hdec.
  split.
  - intros Hign. rewrite Hign, andb_false_r in Hdec.
    case_bool_decide as Hsel;
      [|destruct (startswith_any code (style_guide._selected self)) eqn:Hs];
      injection Hdec as <-; intuition congruence.
  - intros Hign Hsel. rewrite Hign, Hsel in Hdec.
    destruct (bool_decide (style_guide._ignored self = [])) eqn:Hi.
    + apply bool_decide_eq_true in Hi. rewrite Hi in Hign. discriminate.
    + case_bool_decide; simpl in Hdec; injection Hdec as <-; reflexivity.
Qed.

Lemma should_report_error_table_witness :
  Some style_guide.Decision_Selected = Some style_guide.Decision_Selected
  <-> (style_guide._selected style_guide_E1 = []
       \/ startswith_any "E123" (style_guide._selected style_guide_E1) = true).
Proof.
  apply (proj1 (should_report_error_table style_guide_E1
                  (style_guide.set_decision_cache style_guide_E1
                     (<["E123"%string := Some style_guide.Decision_Selected]> ∅))
                  "E123" (Some style_guide.Decision_Selected)
                  (reachable_init _) eq_refl) eq_refl).
Defined.

(** ** Prefixes of one code *)

Lemma ascii_compare_refl (c : ascii) : Ascii.compare c c = Eq.
Proof. unfold Ascii.compare. apply N.compare_refl. Qed.

Lemma prefix_length (q p : string) :
  String.prefix q p = true -> (String.length q <= String.length p)%nat.
Proof.
  revert p. induction q as [|a q IH]; intros [|b p]; simpl;
    try discriminate; try lia.
  destruct (ascii_dec a b); [|discriminate]. intros H. apply IH in H. lia.
Qed.

(** Of two prefixes of the same code, the one that is not longer is a
    prefix of the other. *)
Lemma prefix_of_prefix (code p q : string) :
  String.prefix p code = true -> String.prefix q code = true ->
  (String.length q <= String.length p)%nat -> String.prefix q p = true.
Proof.
  revert p q. induction code as [|c code IH]; intros [|a p] [|b q]; simpl;
    try discriminate; try reflexivity; try lia.
  destruct (ascii_dec a c) as [->|]; [|discriminate].
  destruct (ascii_dec b c) as [->|]; [|discriminate].
  intros Hp Hq Hlen. destruct (ascii_dec c c); [|congruence].
  apply IH; [assumption|assumption|lia].
Qed.

(** A proper prefix comes first in the order of strings. *)
Lemma proper_prefix_ltb (q p : string) :
  String.prefix q p = true -> (String.length q < String.length p)%nat ->
  String.ltb q p = true.
Proof.
  unfold String.ltb. revert p. induction q as [|a q IH]; intros [|b p]; simpl;
    try discriminate; try lia; try reflexivity.
  destruct (ascii_dec a b) as [->|]; [|discriminate].
  rewrite ascii_compare_refl. intros Hp Hlen. apply IH; [assumption|lia].
Qed.

(** The smallest matching prefix is a shortest one. *)
Lemma smallest_matching_shortest (prefixes : list string) (code p : string) :
  smallest_matching prefixes code p ->
  forall q, q ∈ prefixes -> startswith code q = true ->
            (String.length p <= String.length q)%nat.
Proof.
  intros (Hin & Hp & Hmin) q Hq Hstart.
  destruct (le_lt_dec (String.length p) (String.length q)) as [|Hlt];
    [assumption|].
  specialize (Hmin q Hq Hstart). unfold startswith in *.
  rewrite (proper_prefix_ltb q p) in Hmin; [discriminate| |assumption].
  apply (prefix_of_prefix code); [assumption|assumption|lia].
Qed.

(** The tie, by lengths.  A code that is explicitly selected and
    explicitly ignored is reported exactly when some ignored prefix that
    matches it is no longer than every selected prefix that matches it:
    the shortest matching prefixes decide, and a longer, more specific
    selected prefix does not win against a shorter selected one. *)
Theorem should_report_error_shortest_prefixes
    (self self' : style_guide.StyleGuide) (code : string)
    (d : option style_guide.Decision) :
  reachable self ->
  style_guide.is_user_selected self code = style_guide.Selected_Explicitly ->
  style_guide.is_user_ignored self code = style_guide.Ignored_Explicitly ->
  style_guide.should_report_error self code = ret (d, self') ->
  (d = Some style_guide.Decision_Selected
   <-> exists ignored,
         ignored ∈ style_guide._ignored self
         /\ startswith code ignored = true
         /\ forall selected,
              selected ∈ style_guide._selected self ->
              startswith code selected = true ->
              (String.length ignored <= String.length selected)%nat)
  /\ (d = Some style_guide.Decision_Selected \/ d = Some style_guide.Decision_Ignored).
Proof.
  intros Hreach Hsel Hign Hstep.
  destruct (should_report_error_inv self code d self'
              (reachable_cache_ok self Hreach) Hstep) as (Hdec & _).
  assert (Hsa : startswith_any code (style_guide._selected self) = true).
  { unfold style_guide.is_user_selected in Hsel.
    destruct (bool_decide _) in Hsel; [discriminate|].
    destruct (startswith_any _ _); [reflexivity|discriminate]. }
  assert (Hia : startswith_any code (style_guide._ignored self) = true).
  { unfold style_guide.is_user_ignored in Hign.
    destruct (negb _) in Hign; [|discriminate]. simpl in Hign.
    destruct (startswith_any _ _); [reflexivity|discriminate]. }
  destruct (first_sorted_smallest _ _ Hsa) as (s & Hfs & Hs).
  destruct (first_sorted_smallest _ _ Hia) as (i & Hfi & Hi).
  unfold decision_of in Hdec. rewrite Hsel, Hign in Hdec.
  unfold style_guide._decision_for in Hdec. rewrite Hfs, Hfi in Hdec.
  simpl in Hdec.
  assert (Hd : d = Some (if startswith s i then style_guide.Decision_Selected
                         else style_guide.Decision_Ignored))
    by (destruct (startswith s i); unfold bind, ret in Hdec;
        injection Hdec as <-; reflexivity).
  subst d. clear Hdec.
  pose proof (smallest_matching_shortest _ _ _ Hs) as Hs_short.
  pose proof (smallest_matching_shortest _ _ _ Hi) as Hi_short.
  destruct Hs as (Hs_in & Hs_start & _), Hi as (Hi_in & Hi_start & _).
  unfold startswith in *.
  split; [|destruct (String.prefix i s); auto].
  destruct (String.prefix i s) eqn:Hpre.
  - split; [intros _|reflexivity]. exists i. split; [assumption|].
    split; [assumption|]. intros s' Hs' Hstart'.
    apply prefix_length in Hpre. specialize (Hs_short s' Hs' Hstart'). lia.
  - split; [discriminate|]. intros (i' & Hi' & Hstart' & Hall).
    rewrite (prefix_of_prefix code s i) in Hpre; [discriminate|assumption..|].
    specialize (Hi_short i' Hi' Hstart'). specialize (Hall s Hs_in Hs_start). lia.
Qed.

Lemma should_report_error_shortest_prefixes_witness :
  (Some style_guide.Decision_Ignored = Some style_guide.Decision_Selected
   <-> exists ignored,
         ignored ∈ style_guide._ignored style_guide_E_E12_E1
         /\ startswith "E123" ignored = true
         /\ forall selected,
              selected ∈ style_guide._selected style_guide_E_E12_E1 ->
              startswith "E123" selected = true ->
              (String.length ignored <= String.length selected)%nat)
  /\ (Some style_guide.Decision_Ignored = Some style_guide.Decision_Selected
      \/ Some style_guide.Decision_Ignored = Some style_guide.Decision_Ignored).
Proof.
  apply (should_report_error_shortest_prefixes style_guide_E_E12_E1
           (style_guide.set_decision_cache style_guide_E_E12_E1
              (<["E123"%string := Some style_guide.Decision_Ignored]> ∅))
           "E123" (Some style_guide.Decision_Ignored) (reachable_init _));
    reflexivity.
Defined.

(** ** What the inline pattern matches *)

Lemma match_literal_inv (lit s rest : string) :
  style_guide.match_literal lit s = Some rest ->
  exists m, s = m +:+ rest /\ lower_string m = lower_string lit.
Proof.
  revert s. induction lit as [|a lit IH]; intros s; simpl.
  - intros [= ->]. exists EmptyString. split; reflexivity.
  - destruct s as [|c s]; [discriminate|].
    destruct (Ascii.eqb_spec (style_guide.lower a) (style_guide.lower c))
      as [Heq|]; [|discriminate].
    intros H. destruct (IH s H) as (m & -> & Hm).
    exists (String c m). split; [reflexivity|]. simpl. congruence.
Qed.

Lemma lower_colon_space (m : string) :
  lower_string m = ": "%string -> m = ": "%string.
Proof.
  destruct m as [|c1 [|c2 [|c3 m]]]; try discriminate. simpl.
  intros [= H1 H2]. f_equal; [|f_equal].
  - destruct c1 as [[] [] [] [] [] [] [] []]; vm_compute in H1; congruence.
  - destruct c2 as [[] [] [] [] [] [] [] []]; vm_compute in H2; congruence.
Qed.

Lemma at_dollar_line_end (s : string) :
  style_guide.at_dollar s = true -> is_line_end s.
Proof.
  destruct s as [|c [|c' s]]; simpl; try discriminate.
  - left. reflexivity.
  - intros Hc. apply Ascii.eqb_eq in Hc. subst. right. reflexivity.
Qed.

Lemma match_codes_dollar_inv (s run : string) :
  style_guide.match_codes_dollar s = Some run ->
  exists eol,
    s = run +:+ eol /\ run <> EmptyString
    /\ all_in_codes_class run = true /\ is_line_end eol.
Proof.
  revert run. induction s as [|c s IH]; intros run; simpl; [discriminate|].
  destruct (style_guide.in_codes_class c) eqn:Hc; [|discriminate].
  destruct (style_guide.match_codes_dollar s) as [run'|].
  - intros [= <-]. destruct (IH run' eq_refl) as (eol & -> & _ & Hall & Heol).
    exists eol. simpl. rewrite Hc, Hall. repeat split; [discriminate|assumption].
  - destruct (style_guide.at_dollar s) eqn:Hd; [|discriminate].
    intros [= <-]. exists s. simpl. rewrite Hc.
    repeat split; [discriminate|]. apply at_dollar_line_end. exact Hd.
Qed.

Lemma match_group_dollar_inv (s : string) (g : option string) :
  style_guide.match_group_dollar s = Some g ->
  exists codes eol,
    s = codes +:+ eol /\ all_in_codes_class codes = true /\ is_line_end eol
    /\ g = codes_group codes.
Proof.
  unfold style_guide.match_group_dollar.
  destruct (style_guide.match_codes_dollar s) as [run|] eqn:Hrun.
  - intros [= <-].
    destruct (match_codes_dollar_inv s run Hrun) as (eol & -> & Hne & Hall & Heol).
    exists run, eol. repeat split; try assumption.
    destruct run; [congruence|reflexivity].
  - destruct (style_guide.at_dollar s) eqn:Hd; [|discriminate].
    intros [= <-]. exists EmptyString, s. repeat split.
    apply at_dollar_line_end. exact Hd.
Qed.

Lemma match_here_inv (s : string) (g : option string) :
  style_guide.match_here s = Some g ->
  exists marker colon codes eol,
    s = marker +:+ colon +:+ codes +:+ eol
    /\ lower_string marker = "# noqa"%string
    /\ (colon = EmptyString \/ colon = ": "%string)
    /\ all_in_codes_class codes = true /\ is_line_end eol
    /\ g = codes_group codes.
Proof.
  unfold style_guide.match_here.
  destruct (style_guide.match_literal "# noqa" s) as [rest|] eqn:Hlit;
    [|discriminate].
  destruct (match_literal_inv _ _ _ Hlit) as (marker & -> & Hm).
  change (lower_string "# noqa") with "# noqa"%string in Hm.
  destruct (style_guide.match_literal ": " rest) as [rest'|] eqn:Hcolon.
  - destruct (match_literal_inv _ _ _ Hcolon) as (colon & -> & Hc).
    change (lower_string ": ") with ": "%string in Hc.
    apply lower_colon_space in Hc. subst colon.
    destruct (style_guide.match_group_dollar rest') as [g'|] eqn:Hg.
    + intros [= <-].
      destruct (match_group_dollar_inv _ _ Hg) as (codes & eol & -> & Hall & Heol & ->).
      exists marker, ": "%string, codes, eol. auto 10.
    + intros Hg'.
      destruct (match_group_dollar_inv _ _ Hg') as (codes & eol & Heq & Hall & Heol & ->).
      exists marker, EmptyString, codes, eol. rewrite Heq. auto 10.
  - intros Hg.
    destruct (match_group_dollar_inv _ _ Hg) as (codes & eol & -> & Hall & Heol & ->).
    exists marker, EmptyString, codes, eol. auto 10.
Qed.

Lemma search_inv (s : string) (g : option string) :
  style_guide.NOQA_INLINE_REGEXP_search s = Some g ->
  exists before tail, s = before +:+ tail /\ style_guide.match_here tail = Some g.
Proof.
  induction s as [|c s IH].
  - simpl. discriminate.
  - rewrite search_cons.
    destruct (style_guide.match_here (String c s)) as [m|] eqn:Hm.
    + intros [= <-]. exists EmptyString, (String c s). split; [reflexivity|exact Hm].
    + intros H. destruct (IH H) as (before & tail & -> & Ht).
      exists (String c before), tail. split; [reflexivity|exact Ht].
Qed.

Lemma codes_class_not_colon (c : ascii) :
  style_guide.in_codes_class c = true ->
  Ascii.eqb (style_guide.lower ":"%char) (style_guide.lower c) = false.
Proof. destruct c as [[] [] [] [] [] [] [] []]; vm_compute; congruence. Qed.

Lemma match_here_shape (marker colon codes eol : string) :
  lower_string marker = "# noqa"%string ->
  colon = EmptyString \/ colon = ": "%string ->
  all_in_codes_class codes = true -> is_line_end eol ->
  style_guide.match_here (marker +:+ colon +:+ codes +:+ eol)
  = Some (codes_group codes).
Proof.
  intros Hm Hcolon Hall Heol.
  destruct codes as [|c codes].
  - destruct Hcolon as [-> | ->].
    + apply match_here_bare; assumption.
    + unfold style_guide.match_here. rewrite <- Hm, match_literal_lower.
      destruct Heol as [-> | ->]; reflexivity.
  - destruct Hcolon as [-> | ->].
    + unfold style_guide.match_here. rewrite <- Hm, match_literal_lower.
      change (EmptyString +:+ String c codes +:+ eol)
        with (String c (codes +:+ eol)).
      rewrite match_literal_cons.
      simpl in Hall. apply andb_true_iff in Hall as [Hc Hall].
      rewrite (codes_class_not_colon c Hc).
      unfold style_guide.match_group_dollar.
      change (String c (codes +:+ eol)) with (String c codes +:+ eol).
      rewrite match_codes_dollar_run; [reflexivity|discriminate| |assumption].
      simpl. rewrite Hc. exact Hall.
    + apply match_here_codes; [assumption|discriminate|assumption..].
Qed.

(** What [NOQA_INLINE_REGEXP] finds.  The search matches exactly the
    lines that end, up to one newline, in [# noqa] in some casing, then
    [: ] or nothing, then a run, possibly empty, of letters, digits and
    commas; the [codes] group is that run, and takes no part when the run
    is empty.  Nothing may follow the run: not a blank, not a second
    comment. *)
Theorem NOQA_INLINE_REGEXP_search_matches (line : string) (g : option string) :
  style_guide.NOQA_INLINE_REGEXP_search line = Some g
  <-> exists before marker colon codes eol,
        line = before +:+ marker +:+ colon +:+ codes +:+ eol
        /\ lower_string marker = "# noqa"%string
        /\ (colon = EmptyString \/ colon = ": "%string)
        /\ all_in_codes_class codes = true /\ is_line_end eol
        /\ g = codes_group codes.
Proof.
  split.
  - intros Hs. destruct (search_inv line g Hs) as (before & tail & -> & Hm).
    destruct (match_here_inv tail g Hm)
      as (marker & colon & codes & eol & -> & H).
    exists before, marker, colon, codes, eol. split; [reflexivity|exact H].
  - intros (before & marker & colon & codes & eol & -> & Hm & Hc & Hall & Heol & ->).
    pose proof (match_here_shape marker colon codes eol Hm Hc Hall Heol) as Hh.
    destruct (noqa_marker_head marker Hm) as [tail ->].
    change (String hash tail +:+ colon +:+ codes +:+ eol)
      with (String hash (tail +:+ colon +:+ codes +:+ eol)) in *.
    apply search_finds. exact Hh.
Qed.

(** A line on which the search finds nothing is never ignored inline;
    in particular a line without [#]. *)
Example search_examples :
  style_guide.NOQA_INLINE_REGEXP_search "x = 1  # noqa:E501" = None
  /\ style_guide.NOQA_INLINE_REGEXP_search "x = 1  # noqa " = None
  /\ style_guide.NOQA_INLINE_REGEXP_search "x = 1  # noqaE501" = Some (Some "E501"%string)
  /\ style_guide.NOQA_INLINE_REGEXP_search "x = 1  # noqa: e501" = Some (Some "e501"%string).
Proof. repeat split. Qed.

(** ** [StyleGuide.handle_error] *)

Lemma is_inline_ignored_options utils getline self1 self2 error :
  style_guide.options self1 = style_guide.options self2 ->
  style_guide.is_inline_ignored utils getline self1 error
  = style_guide.is_inline_ignored utils getline self2 error.
Proof. unfold style_guide.is_inline_ignored. intros ->. reflexivity. Qed.

Lemma is_in_diff_parsed_diff self1 self2 error :
  style_guide._parsed_diff self1 = style_guide._parsed_diff self2 ->
  style_guide.is_in_diff self1 error = style_guide.is_in_diff self2 error.
Proof. unfold style_guide.is_in_diff. intros ->. reflexivity. Qed.

(** [handle_error] does not raise.  It hands at most one error to the
    formatter, the one it was given with the file name of standard input
    replaced, and it hands it over exactly when the code is selected, the
    line does not silence it and the diff holds it, the two checks being
    made on the replaced file name.  Of the style guide only the cache
    changes. *)
Theorem handle_error_reports
    (utils : style_guide.Utils) (getline : option string -> Z -> string)
    (self : style_guide.StyleGuide)
    (code : string) (filename : option string) (line_number column_number : Z)
    (text : string) (physical_line : option string) :
  reachable self ->
  let error :=
    error_handled self code filename line_number column_number text physical_line in
  exists d self',
    style_guide.should_report_error self code = ret (Some d, self')
    /\ style_guide.handle_error utils getline self code filename line_number
         column_number text physical_line
       = ret (if bool_decide (d = style_guide.Decision_Selected)
                 && negb (style_guide.is_inline_ignored utils getline self error)
                 && style_guide.is_in_diff self error
              then [error] else [], self')
    /\ reachable self'
    /\ style_guide.options self' = style_guide.options self
    /\ style_guide._parsed_diff self' = style_guide._parsed_diff self.
Proof.
  intros Hreach error.
  destruct (decision_of_total self code) as [d Hd].
  destruct (should_report_error_decision self code (Some d)
              (reachable_cache_ok self Hreach) Hd) as [self' Hr].
  destruct (should_report_error_inv self code (Some d) self'
              (reachable_cache_ok self Hreach) Hr)
    as (_ & _ & _ & _ & Hdiff & Hopt).
  exists d, self'. split; [exact Hr|]. split; [|split; [|split]];
    [|eapply reachable_should_report; eassumption|exact Hopt|exact Hdiff].
  unfold style_guide.handle_error. rewrite Hr. simpl.
  assert (Herr :
    (if bool_decide (filename = None) || bool_decide (filename = Some "-"%string)
     then style_guide.mkError code
            (style_guide.stdin_display_name (style_guide.options self))
            line_number column_number text physical_line
     else style_guide.mkError code filename line_number column_number text
            physical_line) = error).
  { unfold error, error_handled. destruct filename as [name|]; [|reflexivity].
    simpl. destruct (String.eqb_spec name "-") as [->|Hne].
    - rewrite bool_decide_eq_true_2 by reflexivity. reflexivity.
    - rewrite bool_decide_eq_false_2 by congruence. reflexivity. }
  rewrite Herr.
  rewrite (is_inline_ignored_options utils getline self' self error Hopt).
  rewrite (is_in_diff_parsed_diff self' self error Hdiff).
  replace (bool_decide (Some d = Some style_guide.Decision_Selected))
    with (bool_decide (d = style_guide.Decision_Selected)).
  - destruct (_ && _ && _); reflexivity.
  - destruct d; reflexivity.
Qed.

Lemma handle_error_reports_witness :
  exists d self',
    style_guide.should_report_error (style_guide_example diff_table_example)
      "E501" = ret (Some d, self')
    /\ style_guide.handle_error utils_model (fun _ _ => EmptyString)
         (style_guide_example diff_table_example) "E501" (Some "a.py"%string)
         4 0 "line too long" (Some "x = 1"%string)
       = ret (if bool_decide (d = style_guide.Decision_Selected)
                 && negb (style_guide.is_inline_ignored utils_model
                            (fun _ _ => EmptyString)
                            (style_guide_example diff_table_example)
                            (error_handled (style_guide_example diff_table_example)
                               "E501" (Some "a.py"%string) 4 0 "line too long"
                               (Some "x = 1"%string)))
                 && style_guide.is_in_diff (style_guide_example diff_table_example)
                      (error_handled (style_guide_example diff_table_example)
                         "E501" (Some "a.py"%string) 4 0 "line too long"
                         (Some "x = 1"%string))
              then [error_handled (style_guide_example diff_table_example)
                      "E501" (Some "a.py"%string) 4 0 "line too long"
                      (Some "x = 1"%string)]
              else [], self')
    /\ reachable self'
    /\ style_guide.options self'
       = style_guide.options (style_guide_example diff_table_example)
    /\ style_guide._parsed_diff self'
       = style_guide._parsed_diff (style_guide_example diff_table_example).
Proof.
  apply (handle_error_reports utils_model (fun _ _ => EmptyString)
           (style_guide_example diff_table_example) "E501" (Some "a.py"%string)
           4 0 "line too long" (Some "x = 1"%string)).
  apply reachable_add_diff_ranges. apply reachable_init.
Defined.

(** A trailing [# noqa] keeps an error from the formatter whatever its
    code and whatever the select and ignore lists say, unless
    [disable_noqa] is set. *)
Theorem handle_error_noqa_silences
    (utils : style_guide.Utils) (getline : option string -> Z -> string)
    (self : style_guide.StyleGuide)
    (code : string) (filename : option string) (line_number column_number : Z)
    (text before marker eol : string) :
  reachable self ->
  style_guide.disable_noqa (style_guide.options self) = false ->
  lower_string marker = "# noqa"%string -> is_line_end eol ->
  exists self',
    style_guide.handle_error utils getline self code filename line_number
      column_number text (Some (before +:+ marker +:+ eol))
    = ret ([], self').
Proof.
  intros Hreach Hon Hm Heol.
  destruct (decision_of_total self code) as [d Hd].
  destruct (should_report_error_decision self code (Some d)
              (reachable_cache_ok self Hreach) Hd) as [self' Hr].
  destruct (should_report_error_inv self code (Some d) self'
              (reachable_cache_ok self Hreach) Hr)
    as (_ & _ & _ & _ & _ & Hopt).
  exists self'. unfold style_guide.handle_error. rewrite Hr. simpl.
  assert (Hign : forall name,
    style_guide.is_inline_ignored utils getline self'
      (style_guide.mkError code name line_number column_number text
         (Some (before +:+ marker +:+ eol))) = true).
  { intros name. unfold style_guide.is_inline_ignored. rewrite Hopt, Hon. simpl.
    destruct (noqa_marker_head marker Hm) as [tail ->].
    change (String hash tail +:+ eol) with (String hash (tail +:+ eol)).
    rewrite (search_finds before (tail +:+ eol) None); [reflexivity|].
    apply (match_here_bare (String hash tail) eol Hm Heol). }
  destruct (bool_decide (filename = None) || bool_decide (filename = Some "-"%string));
    rewrite Hign, andb_false_r; reflexivity.
Qed.

Lemma handle_error_noqa_silences_witness :
  exists self',
    style_guide.handle_error utils_model (fun _ _ => EmptyString)
      style_guide_E1 "E123" (Some "a.py"%string) 3 0 "indentation"
      (Some ("    x = 1  " +:+ "# NOQA" +:+ EmptyString))
    = ret ([], self').
Proof.
  apply (handle_error_noqa_silences utils_model (fun _ _ => EmptyString)
           style_guide_E1 "E123" (Some "a.py"%string) 3 0 "indentation"
           "    x = 1  " "# NOQA" EmptyString (reachable_init _) eq_refl eq_refl).
  left. reflexivity.
Defined.

(** ** More on [find_offset] *)

Lemma find_offset_loop_break (offset : Z) (before after : list MappingEntry)
    (entry : MappingEntry) (bound : option MappingEntry) :
  Forall (fun e => e.1 < offset) before -> offset <= entry.1 ->
  find_offset_loop offset (before ++ entry :: after) bound = Some entry.
Proof.
  revert bound. induction before as [|[t p] before IH]; intros bound Hall Hle.
  - simpl. destruct entry as [t p]. simpl in Hle.
    destruct (Z.leb_spec offset t); [reflexivity|lia].
  - inversion Hall as [|? ? Hlt Hall']; subst. simpl in Hlt |- *.
    destruct (Z.leb_spec offset t); [lia|]. apply IH; assumption.
Qed.

(** The rule of [find_offset]: an integer offset is resolved against the
    first entry of the mapping whose token offset is not below it; the
    line is that entry's, the column that entry's column less the
    distance to the token offset. *)
Theorem find_offset_first_boundary
    (offset : Z) (before after : list MappingEntry) (token_offset line column : Z) :
  Forall (fun e => e.1 < offset) before ->
  offset <= token_offset ->
  find_offset (OffsetInt offset)
    (before ++ (token_offset, (line, column)) :: after)
  = ret (line, column - (token_offset - offset)).
Proof.
  intros Hall Hle.
  pose proof (find_offset_loop_break offset before after
                (token_offset, (line, column)) None Hall Hle) as Hloop.
  unfold find_offset, MappingEntry in *. rewrite Hloop.
  simpl. f_equal. f_equal. lia.
Qed.

Lemma find_offset_first_boundary_witness :
  find_offset (OffsetInt 3) ([(0, (1, 0)); (2, (1, 2))] ++ (6, (1, 6)) :: [(9, (2, 4))])
  = ret (1, 6 - (6 - 3)).
Proof.
  apply (find_offset_first_boundary 3 [(0, (1, 0)); (2, (1, 2))] [(9, (2, 4))] 6 1 6).
  - repeat constructor; simpl; lia.
  - lia.
Defined.

Lemma find_offset_loop_bound (offset : Z) (mapping : list MappingEntry)
    (bound : option MappingEntry) :
  (exists e, bound = Some e) \/ mapping <> [] ->
  exists e, find_offset_loop offset mapping bound = Some e
            /\ (e ∈ mapping \/ bound = Some e).
Proof.
  revert bound. induction mapping as [|[t p] mapping IH]; intros bound H.
  - destruct H as [[e ->]|H]; [|congruence]. exists e. simpl. auto.
  - simpl. destruct (offset <=? t).
    + exists (t, p). split; [reflexivity|]. left. left.
    + destruct (IH (Some (t, p))) as (e & -> & He); [left; eauto|].
      exists e. split; [reflexivity|]. left.
      destruct He as [He|[= <-]]; [right; exact He|left].
Qed.

Lemma find_offset_nonempty (offset : Z) (mapping : list MappingEntry) :
  mapping <> [] ->
  exists token_offset line column,
    (token_offset, (line, column)) ∈ mapping
    /\ find_offset (OffsetInt offset) mapping
       = ret (line, column + offset - token_offset).
Proof.
  intros H.
  destruct (find_offset_loop_bound offset mapping None) as (e & He & Hin);
    [right; exact H|].
  destruct Hin as [Hin|]; [|discriminate]. destruct e as [t [l c]].
  exists t, l, c. split; [exact Hin|]. unfold find_offset. rewrite He. reflexivity.
Qed.

(** [find_offset] with an integer offset raises exactly on the empty
    mapping, where the loop variables are never bound; on any other
    mapping it returns, with the line of one of the entries. *)
Theorem find_offset_raises_iff_empty (offset : Z) (mapping : list MappingEntry) :
  (mapping = [] <-> raises (find_offset (OffsetInt offset) mapping) UnboundLocalError)
  /\ (mapping <> [] ->
      exists token_offset line column,
        (token_offset, (line, column)) ∈ mapping
        /\ find_offset (OffsetInt offset) mapping
           = ret (line, column + offset - token_offset)).
Proof.
  split; [|apply find_offset_nonempty]. split.
  - intros ->. reflexivity.
  - intros Hr. destruct mapping as [|e mapping]; [reflexivity|].
    destruct (find_offset_nonempty offset (e :: mapping)) as (t & l & c & _ & Heq);
      [discriminate|].
    rewrite Heq in Hr. destruct Hr.
Qed.

Lemma find_offset_raises_iff_empty_witness :
  exists token_offset line column,
    (token_offset, (line, column)) ∈ [(0, (3, 4)); (5, (4, 0))]
    /\ find_offset (OffsetInt 9) [(0, (3, 4)); (5, (4, 0))]
       = ret (line, column + 9 - token_offset).
Proof.
  apply (proj2 (find_offset_raises_iff_empty 9 [(0, (3, 4)); (5, (4, 0))])).
  discriminate.
Defined.

(** ** [FileChecker.report] *)

Lemma split_space_join (code message : string) :
  has_space code = false ->
  split_space (code +:+ " " +:+ message) = Some (code, message).
Proof.
  induction code as [|c code IH]; simpl; [reflexivity|].
  intros H. apply orb_false_iff in H as [Hc Hs]. rewrite Hc.
  rewrite (IH Hs). reflexivity.
Qed.

Lemma split_space_none (text : string) :
  split_space text = None <-> has_space text = false.
Proof.
  induction text as [|c text IH]; simpl; [tauto|].
  destruct (Ascii.eqb c " "); simpl; [split; discriminate|].
  destruct (split_space text) as [[a b]|]; [|tauto].
  split; [discriminate|]. intros H. apply IH in H. discriminate.
Qed.

Lemma split_space_some (text code message : string) :
  split_space text = Some (code, message) ->
  text = code +:+ " " +:+ message /\ has_space code = false.
Proof.
  revert code. induction text as [|c text IH]; intros code; simpl; [discriminate|].
  destruct (Ascii.eqb_spec c " ") as [->|Hc].
  - intros [= <- <-]. split; reflexivity.
  - destruct (split_space text) as [[a b]|]; [|discriminate].
    intros [= <- <-]. destruct (IH a eq_refl) as [-> Ha]. split; [reflexivity|].
    simpl. rewrite Ha. destruct (Ascii.eqb_spec c " "); [congruence|reflexivity].
Qed.

(** [report] without a code takes it from the text: the code is what
    stands before the first blank, the message what follows it, and one
    entry is added at the end of the results.  A text without a blank
    makes [report] raise [ValueError], and nothing is added. *)
Theorem report_code_from_text
    (self : FileChecker) (p : FileProcessor) (line column : Z) (text : string) :
  processor self = Some (Some p) ->
  (forall code message,
     text = code +:+ " " +:+ message -> has_space code = false ->
     report None line column text self
     = (ret code,
        set_results self
          (results self ++ [(code, line, column, message, line_for p line)])))
  /\ (has_space text = false ->
      exists e, report None line column text self = (raise e, self)
                /\ exc_type e = ValueError).
Proof.
  intros Hp. split.
  - intros code message -> Hcode. unfold report, mbind, lift, get_processor.
    rewrite (split_space_join code message Hcode). simpl. rewrite Hp. reflexivity.
  - intros Hnone. apply split_space_none in Hnone.
    unfold report, mbind, lift. rewrite Hnone. eexists. split; reflexivity.
Qed.

Lemma report_code_from_text_witness :
  report None 3 7 ("E225" +:+ " " +:+ "missing whitespace around operator")
    checker_syntax_error
  = (ret "E225"%string,
     set_results checker_syntax_error
       (results checker_syntax_error
        ++ [("E225"%string, 3, 7, "missing whitespace around operator"%string,
             line_for processor_syntax_error 3)])).
Proof.
  apply (proj1 (report_code_from_text checker_syntax_error processor_syntax_error
                  3 7 ("E225" +:+ " " +:+ "missing whitespace around operator")
                  eq_refl)); reflexivity.
Defined.

(** ** What the checks of a file keep *)

Lemma extends_refl (self : FileChecker) : extends self self.
Proof.
  repeat split; try (exists []; rewrite app_nil_r; reflexivity).
Qed.

Lemma extends_trans (s1 s2 s3 : FileChecker) :
  extends s1 s2 -> extends s2 s3 -> extends s1 s3.
Proof.
  intros (Hf1 & Ha1 & Ho1 & Hp1 & [r1 Hr1] & [n1 Hn1])
         (Hf2 & Ha2 & Ho2 & Hp2 & [r2 Hr2] & [n2 Hn2]).
  repeat split; try congruence.
  - exists (r1 ++ r2). rewrite Hr2, Hr1, app_assoc. reflexivity.
  - exists (n1 ++ n2). rewrite Hn2, Hn1, app_assoc. reflexivity.
Qed.

Lemma extends_set_results (self : FileChecker) (added : list ErrorTuple) :
  extends self (set_results self (results self ++ added)).
Proof.
  repeat split; [exists added; reflexivity|].
  exists []. simpl. rewrite app_nil_r. reflexivity.
Qed.

Lemma extends_log_executed (self : FileChecker) (name : string) :
  extends self (log_executed self name).
Proof.
  repeat split; [|exists [name]; reflexivity].
  exists []. simpl. rewrite app_nil_r. reflexivity.
Qed.

Lemma keeps_mret {A} (a : A) : keeps (mret a).
Proof. intros self r self' [= <- <-]. apply extends_refl. Qed.

Lemma keeps_mraise {A} (e : exception) : keeps (@mraise A e).
Proof. intros self r self' [= <- <-]. apply extends_refl. Qed.

Lemma keeps_lift {A} (x : result A) : keeps (lift x).
Proof. intros self r self' [= <- <-]. apply extends_refl. Qed.

Lemma keeps_mbind {A B} (m : M A) (k : A -> M B) :
  keeps m -> (forall a, keeps (k a)) -> keeps (mbind m k).
Proof.
  intros Hm Hk self r self'. unfold mbind.
  destruct (m self) as [[e|a] self1] eqn:Hrun.
  - intros [= <- <-]. eapply Hm. exact Hrun.
  - intros Hrun2. eapply extends_trans; [eapply Hm; exact Hrun|].
    eapply Hk. exact Hrun2.
Qed.

Lemma keeps_get_processor : keeps get_processor.
Proof.
  intros self r self'. unfold get_processor.
  destruct (processor self) as [[p|]|]; intros [= <- <-]; apply extends_refl.
Qed.

Lemma keeps_report (error_code : option string) (line column : Z) (text : string) :
  keeps (report error_code line column text).
Proof.
  unfold report. apply keeps_mbind; [apply keeps_lift|]. intros [code msg].
  apply keeps_mbind; [apply keeps_get_processor|]. intros p.
  intros self r self' [= <- <-]. apply extends_set_results.
Qed.

Lemma keeps_for_each {A} (l : list A) (body : A -> M unit) :
  (forall x, keeps (body x)) -> keeps (for_each l body).
Proof.
  intros Hbody. induction l as [|x l IH]; simpl.
  - apply keeps_mret.
  - apply keeps_mbind; [apply Hbody|]. intros _. exact IH.
Qed.

Lemma keeps_run_ast_checks (b : Builtins) : keeps (run_ast_checks b).
Proof.
  unfold run_ast_checks. apply keeps_mbind; [apply keeps_get_processor|].
  intros p. destruct (build_ast p) as [exception|ast].
  - destruct (_ || _ || _); [|apply keeps_mraise].
    repeat (apply keeps_mbind; [first [apply keeps_lift|apply keeps_report]|];
            intros ?).
    apply keeps_mret.
  - intros self r self' Hrun. cbv beta in Hrun.
    eapply keeps_for_each; [|exact Hrun]. intros plugin.
    apply keeps_mbind.
    + intros s r0 s' [= <- <-]. apply extends_log_executed.
    + intros _. apply keeps_for_each. intros [[line_number offset] text].
      apply keeps_mbind; [apply keeps_report|]. intros _. apply keeps_mret.
Qed.

Lemma keeps_run_checks (b : Builtins) (process_tokens : M unit)
    (results_queue : bool) :
  keeps process_tokens -> keeps (run_checks b process_tokens results_queue).
Proof.
  intros Hpt.
  unfold run_checks. apply keeps_mbind; [apply keeps_get_processor|].
  intros p. destruct (should_ignore_file p); [apply keeps_mret|].
  apply keeps_mbind.
  - intros s r0 s' Hrun.
    destruct (process_tokens s) as [[exc|[]] s1] eqn:Hp.
    + destruct (issubclass (exc_type exc) InvalidSyntax).
      * eapply extends_trans; [eapply Hpt; exact Hp|].
        revert Hrun. apply keeps_mbind; [apply keeps_lift|]. intros ?.
        repeat (apply keeps_mbind; [first [apply keeps_lift|apply keeps_report]|];
                intros ?).
        apply keeps_mret.
      * injection Hrun as <- <-. eapply Hpt. exact Hp.
    + injection Hrun as <- <-. eapply Hpt. exact Hp.
  - intros _. apply keeps_mbind; [apply keeps_run_ast_checks|].
    intros _ s r0 s' [= <- <-]. apply extends_refl.
Qed.

(** [run_checks] never loses what was recorded.  Whether it returns or
    raises, and whatever the plugins report, the entries that were in the
    results before are still there, in place, at the head of the
    results; the token-driven part is only asked to do the same. *)
Theorem run_checks_keeps_results
    (b : Builtins) (process_tokens : M unit) (results_queue : bool)
    (self self' : FileChecker) (r : result (list QueueItem)) :
  keeps process_tokens ->
  run_checks b process_tokens results_queue self = (r, self') ->
  extends self self'.
Proof.
  intros Hpt Hrun. eapply keeps_run_checks; eassumption.
Qed.

Lemma run_checks_keeps_results_witness :
  extends checker_syntax_error
    (run_checks builtins_example (mret tt) true checker_syntax_error).2.
Proof.
  apply (run_checks_keeps_results builtins_example (mret tt) true
           checker_syntax_error _
           (run_checks builtins_example (mret tt) true checker_syntax_error).1).
  - apply keeps_mret.
  - destruct (run_checks builtins_example (mret tt) true checker_syntax_error);
      reflexivity.
Defined.

(** ** [FileChecker.run_ast_checks] on a tree that was built *)

Lemma mbind_ret {A B} (m : M A) (k : A -> M B) (self self1 : FileChecker) (a : A) :
  m self = (ret a, self1) -> mbind m k self = k a self1.
Proof. unfold mbind. intros ->. reflexivity. Qed.

Lemma report_yielded (self : FileChecker) (p : FileProcessor)
    (yielded : Z * Z * string) :
  processor self = Some (Some p) ->
  has_space yielded.2 = true ->
  (let '(line_number, offset, text) := yielded in
   mbind (report None line_number offset text) (fun _ => mret tt)) self
  = (ret tt, set_results self (results self ++ [ast_entry p yielded])).
Proof.
  destruct yielded as [[line_number offset] text]. simpl. intros Hp Hs.
  destruct (split_space text) as [[code message]|] eqn:Hsplit.
  - unfold mbind, report, lift, get_processor, mbind. rewrite Hsplit. simpl.
    rewrite Hp. reflexivity.
  - apply split_space_none in Hsplit. congruence.
Qed.

Lemma run_plugin_results (self : FileChecker) (p : FileProcessor)
    (yields : list (Z * Z * string)) :
  processor self = Some (Some p) ->
  Forall (fun y => has_space y.2 = true) yields ->
  for_each yields
    (fun '(line_number, offset, text) =>
       mbind (report None line_number offset text) (fun _ => mret tt)) self
  = (ret tt, set_results self (results self ++ map (ast_entry p) yields)).
Proof.
  revert self. induction yields as [|y yields IH]; intros self Hp Hall.
  - simpl. unfold mret. rewrite app_nil_r. destruct self; reflexivity.
  - inversion Hall as [|? ? Hy Hall']; subst.
    cbn [for_each].
    rewrite (mbind_ret _ _ self _ tt (report_yielded self p y Hp Hy)).
    rewrite IH; [|exact Hp|exact Hall'].
    simpl. rewrite <- app_assoc. reflexivity.
Qed.

Lemma run_plugins_results (ast : AST) (plugins : list Plugin)
    (self : FileChecker) (p : FileProcessor) :
  processor self = Some (Some p) ->
  Forall (fun plugin => Forall (fun y => has_space y.2 = true) (run plugin ast))
    plugins ->
  for_each plugins
    (fun plugin =>
       mbind (fun self => (ret tt, log_executed self (plugin_name plugin)))
         (fun _ =>
            for_each (run plugin ast)
              (fun '(line_number, offset, text) =>
                 mbind (report None line_number offset text) (fun _ => mret tt))))
    self
  = (ret tt,
     mkFileChecker (filename self) (ast_plugins self) (options self)
       (results self
        ++ flat_map (fun plugin => map (ast_entry p) (run plugin ast)) plugins)
       (processor self)
       (executed self ++ map plugin_name plugins)).
Proof.
  revert self. induction plugins as [|plugin plugins IH]; intros self Hp Hall.
  - simpl. unfold mret. rewrite !app_nil_r. destruct self; reflexivity.
  - inversion Hall as [|? ? Hplugin Hall']; subst.
    cbn [for_each].
    erewrite mbind_ret;
      [|erewrite mbind_ret; [|reflexivity];
        apply (run_plugin_results (log_executed self (plugin_name plugin)) p
                 (run plugin ast) Hp Hplugin)].
    rewrite IH; [|exact Hp|exact Hall'].
    simpl. rewrite <- !app_assoc. reflexivity.
Qed.

(** When the tree is built and every text the plugins yield has its code
    and a blank in front, [run_ast_checks] executes every tree plugin
    once, in the order of the list, and adds to the results one entry for
    each item yielded, in the order in which the plugins yield them: the
    entries at the end of the results are not sorted. *)
Theorem run_ast_checks_success
    (b : Builtins) (self : FileChecker) (p : FileProcessor) (ast : AST) :
  processor self = Some (Some p) ->
  build_ast p = ret ast ->
  (forall plugin y, plugin ∈ ast_plugins self -> y ∈ run plugin ast ->
                    has_space y.2 = true) ->
  run_ast_checks b self
  = (ret tt,
     mkFileChecker (filename self) (ast_plugins self) (options self)
       (results self
        ++ flat_map (fun plugin => map (ast_entry p) (run plugin ast))
             (ast_plugins self))
       (processor self)
       (executed self ++ map plugin_name (ast_plugins self))).
Proof.
  intros Hp Hbuild Htexts.
  unfold run_ast_checks.
  erewrite mbind_ret; [|unfold get_processor; rewrite Hp; reflexivity].
  rewrite Hbuild.
  apply run_plugins_results; [exact Hp|].
  apply Forall_forall. intros plugin Hplugin.
  apply Forall_forall. intros y Hy. eapply Htexts; eassumption.
Qed.

Lemma run_ast_checks_success_witness :
  run_ast_checks builtins_example checker_two_plugins
  = (ret tt,
     mkFileChecker "a.py" (ast_plugins checker_two_plugins) (options_noqa false)
       ([("E501"%string, 9, 80, "line too long"%string, None)]
        ++ flat_map
             (fun plugin =>
                map (ast_entry (mkFileProcessor (fun _ => None) (ret (Tree 0)) false))
                  (run plugin (Tree 0)))
             (ast_plugins checker_two_plugins))
       (processor checker_two_plugins)
       ([] ++ map plugin_name (ast_plugins checker_two_plugins))).
Proof.
  apply (run_ast_checks_success builtins_example checker_two_plugins
           (mkFileProcessor (fun _ => None) (ret (Tree 0)) false) (Tree 0)
           eq_refl eq_refl).
  intros plugin y Hplugin Hy.
  repeat (apply elem_of_cons in Hplugin as [->|Hplugin]);
    [| |apply elem_of_nil in Hplugin; contradiction];
    repeat (apply elem_of_cons in Hy as [->|Hy]);
    try reflexivity; apply elem_of_nil in Hy; contradiction.
Defined.

(** ** [FileChecker.run_checks] *)

(** A syntax error in the tokens ends the token-driven part only.  When
    [process_tokens] raises [InvalidSyntax], [run_checks] adds the error
    as an entry after what the tokens had given so far, then runs the
    tree checks all the same, and puts the results on the queue. *)
Theorem run_checks_invalid_syntax
    (b : Builtins) (process_tokens : M unit) (results_queue : bool)
    (self self1 : FileChecker) (p : FileProcessor) (exc : exception)
    (error_code error_message : string) (line_number column_number : Z) :
  processor self = Some (Some p) ->
  should_ignore_file p = false ->
  process_tokens self = (raise exc, self1) ->
  processor self1 = Some (Some p) ->
  issubclass (exc_type exc) InvalidSyntax = true ->
  args exc = [PStr error_code; PInt line_number; PInt column_number;
              PStr error_message] ->
  run_checks b process_tokens results_queue self
  = mbind (run_ast_checks b)
      (fun _ self' =>
         (ret (if results_queue then [Item (filename self') (results self')]
               else []), self'))
      (set_results self1
         (results self1
          ++ [(error_code, line_number, column_number, error_message,
               line_for p line_number)])).
Proof.
  intros Hp Hignore Htokens Hp1 Hclass Hargs.
  unfold run_checks.
  erewrite mbind_ret; [|unfold get_processor; rewrite Hp; reflexivity].
  rewrite Hignore.
  erewrite mbind_ret; [reflexivity|].
  cbv beta. rewrite Htokens. unfold raise. cbv iota. rewrite Hclass, Hargs.
  cbn -[report].
  rewrite (mbind_ret _ _ self1 _ _ (report_bound self1 p _ _ _ _ Hp1)).
  reflexivity.
Qed.

Lemma run_checks_invalid_syntax_witness :
  run_checks builtins_example tokens_invalid true checker_two_plugins
  = mbind (run_ast_checks builtins_example)
      (fun _ self' =>
         (ret (if true then [Item (filename self') (results self')] else []), self'))
      (set_results (tokens_invalid checker_two_plugins).2
         (results (tokens_invalid checker_two_plugins).2
          ++ [("E902"%string, 4, 2,
               "TokenError: EOF in multi-line statement"%string,
               line_for (mkFileProcessor (fun _ => None) (ret (Tree 0)) false) 4)])).
Proof.
  exact (run_checks_invalid_syntax builtins_example tokens_invalid true
           checker_two_plugins (tokens_invalid checker_two_plugins).2
           (mkFileProcessor (fun _ => None) (ret (Tree 0)) false) _
           "E902" "TokenError: EOF in multi-line statement" 4 2
           eq_refl eq_refl eq_refl eq_refl eq_refl eq_refl).
Defined.

(** What [run_checks] puts on the queue.  For a file the processor says
    to ignore it puts nothing and leaves the checker as it is, so that
    the reporter finds no entry for the file.  Otherwise, when it
    returns, it has put exactly one item: the name of the file with the
    results as they are at the end. *)
Theorem run_checks_puts_final_results
    (b : Builtins) (process_tokens : M unit)
    (self self' : FileChecker) (p : FileProcessor) (put : list QueueItem) :
  keeps process_tokens ->
  processor self = Some (Some p) ->
  run_checks b process_tokens true self = (ret put, self') ->
  (should_ignore_file p = true /\ put = [] /\ self' = self)
  \/ (should_ignore_file p = false
      /\ put = [Item (filename self) (results self')]).
Proof.
  intros Hpt Hp Hrun.
  pose proof (keeps_run_checks b process_tokens true Hpt self _ self' Hrun)
    as (Hname & _).
  revert Hrun. unfold run_checks.
  erewrite mbind_ret; [|unfold get_processor; rewrite Hp; reflexivity].
  destruct (should_ignore_file p).
  - intros [= <- <-]. left. auto.
  - unfold mbind, mret. intros Hrun. right. split; [reflexivity|].
    rewrite <- Hname. clear Hname.
    repeat case_match; simplify_eq; reflexivity.
Qed.

Lemma run_checks_puts_final_results_witness :
  let self' := (run_checks builtins_example (mret tt) true checker_two_plugins).2 in
  let p := mkFileProcessor (fun _ => None) (ret (Tree 0)) false in
  (should_ignore_file p = true
   /\ [Item "a.py" (results self')] = [] /\ self' = checker_two_plugins)
  \/ (should_ignore_file p = false
      /\ [Item "a.py" (results self')]
         = [Item (filename checker_two_plugins) (results self')]).
Proof.
  apply (run_checks_puts_final_results builtins_example (mret tt)
           checker_two_plugins
           (run_checks builtins_example (mret tt) true checker_two_plugins).2
           (mkFileProcessor (fun _ => None) (ret (Tree 0)) false)
           [Item "a.py"
              (results (run_checks builtins_example (mret tt) true
                          checker_two_plugins).2)]).
  - apply keeps_mret.
  - reflexivity.
  - reflexivity.
Defined.

(** ** More on [Manager._job_count] *)



(** The warnings of [_job_count].  It logs one warning, and returns 0,
    exactly when it sets the value of [--jobs] aside: without
    [multiprocessing], on Windows, on standard input, with a diff, or for
    a value that is neither ["auto"] nor accepted by [str.isdigit].
    Otherwise it logs nothing; in particular not when [cpu_count] is not
    implemented, although the count is 0 then too, and not when
    [int(jobs)] raises. *)
Theorem job_count_warnings
    (multiprocessing : option Multiprocessing) (utils : style_guide.Utils)
    (arguments : list string) (options : style_guide.Options) :
  let outcome := _job_count multiprocessing utils arguments options in
  let set_aside :=
    multiprocessing = None
    \/ style_guide.is_windows utils = true
    \/ style_guide.is_using_stdin utils arguments = true
    \/ style_guide.diff options = true
    \/ (style_guide.jobs options <> "auto"%string
        /\ isdigit (style_guide.jobs options) = false) in
  (set_aside -> outcome.1 = ret 0 /\ length outcome.2 = 1%nat)
  /\ (~ set_aside -> outcome.2 = []).
Proof.
  cbv zeta. unfold _job_count. split.
  - intros H.
    destruct multiprocessing as [m|]; [|split; reflexivity].
    destruct (style_guide.is_windows utils); [split; reflexivity|].
    destruct (style_guide.is_using_stdin utils arguments); [split; reflexivity|].
    destruct (style_guide.diff options); [split; reflexivity|].
    destruct H as [H|[H|[H|[H|[Hauto Hdig]]]]]; try discriminate.
    rewrite Hdig. rewrite bool_decide_eq_false_2 by assumption.
    split; reflexivity.
  - intros H.
    destruct multiprocessing as [m|]; [|exfalso; apply H; auto].
    destruct (style_guide.is_windows utils); [exfalso; apply H; auto|].
    destruct (style_guide.is_using_stdin utils arguments);
      [exfalso; apply H; auto|].
    destruct (style_guide.diff options); [exfalso; apply H; auto 6|].
    case_bool_decide as Hauto.
    + simpl. destruct (cpu_count m) as [e|n]; [|reflexivity].
      destruct (issubclass _ _); reflexivity.
    + destruct (isdigit (style_guide.jobs options)) eqn:Hdig; [reflexivity|].
      exfalso. apply H. auto 8.
Qed.

Lemma job_count_warnings_witness :
  (_job_count multiprocessing_example utils_model ["-"%string]
     (options_jobs "many")).1 = ret 0
  /\ length (_job_count multiprocessing_example utils_model ["-"%string]
               (options_jobs "many")).2 = 1%nat.
Proof.
  apply (proj1 (job_count_warnings multiprocessing_example utils_model
                  ["-"%string] (options_jobs "many"))).
  right. right. right. right. split; [discriminate|reflexivity].
Defined.

(** ** The order of the reports, file by file *)


(** The reports of a parallel run, once the collection of the results has
    ended.  [_report_after_parallel] calls [handle_error] file by file, in
    the order of the checkers, under the name of the checker's file, and
    the calls for one file are in non-decreasing [(line_number,
    column_number)] order: its sort key [(tup[1], tup[2])] is the line
    and the column. *)
Theorem report_after_parallel_nondecreasing
    (self : Manager) (queue : list QueueItem)
    (reports : list style_guide.Error) :
  _report_after_parallel self queue = Some reports ->
  exists per_file : list (list style_guide.Error),
    reports = concat per_file
    /\ Forall2
         (fun checker calls =>
            Forall (fun error =>
                      style_guide.filename error = Some (filename checker))
              calls
            /\ nondecreasing calls)
         (checkers self) per_file.
Proof.
  unfold _report_after_parallel.
  destruct (_results self queue) as [yielded unread|yielded]; [|discriminate].
  intros [= <-].
  induction (checkers self) as [|checker cs IH].
  - exists []. split; [reflexivity|constructor].
  - destruct IH as (per_file & Hc & Hf).
    eexists (_ :: per_file).
    split; [cbn [flat_map concat]; rewrite <- Hc; reflexivity|].
    constructor; [|exact Hf]. split.
    + rewrite Forall_map. apply Forall_true.
      intros [[[[c l] k] t] p]. reflexivity.
    + apply parallel_sort_nondecreasing.
Qed.

Lemma report_after_parallel_nondecreasing_witness :
  exists per_file : list (list style_guide.Error),
    [style_guide.mkError "E501" (Some "b.py"%string) 1 80 "line too long" None;
     style_guide.mkError "E303" (Some "b.py"%string) 2 0
       "too many blank lines" None]
    = concat per_file
    /\ Forall2
         (fun checker calls =>
            Forall (fun error =>
                      style_guide.filename error = Some (filename checker))
              calls
            /\ nondecreasing calls)
         (checkers manager_one_job) per_file.
Proof.
  apply (report_after_parallel_nondecreasing manager_one_job
           [Item "b.py"
              [("E303"%string, 2, 0, "too many blank lines"%string, None);
               ("E501"%string, 1, 80, "line too long"%string, None)];
            DONE]).
  vm_compute. reflexivity.
Defined.


(** ** What the reports hold *)

(** A serial report hands every entry of every checker to the style
    guide exactly once, under the name of its file: the sort changes the
    order and nothing else. *)
Theorem report_after_serial_permutation (self : Manager) :
  _report_after_serial self ≡ₚ all_calls (checkers self).
Proof.
  unfold _report_after_serial, all_calls.
  induction (checkers self) as [|checker cs IH]; simpl; [reflexivity|].
  apply Permutation_app; [|exact IH].
  apply Permutation_map. apply sorted_perm.
Qed.

Lemma collect_lookup (yielded : list (string * list ErrorTuple))
    (final_results : gmap string (list ErrorTuple)) (name : string) :
  collect final_results yielded !! name
  = match last_put name yielded with
    | Some rs => Some rs
    | None => final_results !! name
    end.
Proof.
  revert final_results. unfold last_put.
  induction yielded as [|[f rs] yielded IH]; intros final_results;
    [reflexivity|].
  simpl. unfold collect in IH. rewrite IH. rewrite filter_cons. simpl.
  destruct (decide (f = name)) as [->|Hne].
  - rewrite last_cons. rewrite lookup_insert_eq.
    destruct (last (filter _ yielded)); reflexivity.
  - rewrite lookup_insert_ne by assumption. reflexivity.
Qed.

(** What [_report_after_parallel] reports, once the collection has ended.
    For each checker, in the order of the checkers and not in the order
    in which the results arrived, it reports the sorted entries of the
    last item that was put for the checker's file name; it reports
    nothing for a checker whose file name was put by no one, and it never
    looks at the results the checker itself holds. *)
Theorem report_after_parallel_per_file
    (self : Manager) (queue unread : list QueueItem)
    (yielded : list (string * list ErrorTuple)) :
  _results self queue = Concluded yielded unread ->
  _report_after_parallel self queue
  = Some
      (flat_map
         (fun checker =>
            map (handle_error_call (filename checker))
              (sorted lt_Z_Z key_parallel
                 (default [] (last_put (filename checker) yielded))))
         (checkers self)).
Proof.
  intros Hres. unfold _report_after_parallel. rewrite Hres. f_equal.
  induction (checkers self) as [|checker cs IH]; [reflexivity|].
  simpl. rewrite IH. f_equal.
  pose proof (collect_lookup yielded ∅ (filename checker)) as Hl.
  unfold collect in Hl. rewrite Hl, lookup_empty.
  destruct (last_put (filename checker) yielded); reflexivity.
Qed.

Lemma report_after_parallel_per_file_witness :
  _report_after_parallel manager_one_job
    [Item "b.py" []; Item "a.py" results_two_lines; DONE; Item "a.py" []]
  = Some
      (flat_map
         (fun checker =>
            map (handle_error_call (filename checker))
              (sorted lt_Z_Z key_parallel
                 (default []
                    (last_put (filename checker)
                       [("b.py"%string, []); ("a.py"%string, results_two_lines)]))))
         (checkers manager_one_job)).
Proof.
  apply (report_after_parallel_per_file manager_one_job
           [Item "b.py" []; Item "a.py" results_two_lines; DONE; Item "a.py" []]
           [Item "a.py" []]
           [("b.py"%string, []); ("a.py"%string, results_two_lines)]).
  reflexivity.
Defined.

Lemma collect_permutation (y1 y2 : list (string * list ErrorTuple)) :
  y1 ≡ₚ y2 -> NoDup y1.*1 ->
  forall final_results, collect final_results y1 = collect final_results y2.
Proof.
  unfold collect.
  induction 1 as [|[f r] l1 l2 Hperm IH|[f1 r1] [f2 r2] l|l1 l2 l3 H12 IH12 H23 IH23];
    intros Hnd m.
  - reflexivity.
  - simpl. apply IH. inversion Hnd; assumption.
  - simpl. f_equal. apply insert_insert_ne.
    simpl in Hnd. inversion Hnd as [|? ? Hnotin _]; subst.
    intros ->. apply Hnotin. left.
  - rewrite IH12 by assumption. apply IH23.
    rewrite <- H12. assumption.
Qed.

(** The report does not depend on the order of arrival.  When every file
    name was put once, two queues on which the reporter collects the same
    items in different orders give the same report. *)
Theorem report_after_parallel_arrival_order
    (self : Manager) (queue1 queue2 unread1 unread2 : list QueueItem)
    (yielded1 yielded2 : list (string * list ErrorTuple)) :
  _results self queue1 = Concluded yielded1 unread1 ->
  _results self queue2 = Concluded yielded2 unread2 ->
  yielded1 ≡ₚ yielded2 ->
  NoDup yielded1.*1 ->
  _report_after_parallel self queue1 = _report_after_parallel self queue2.
Proof.
  intros H1 H2 Hperm Hnd. unfold _report_after_parallel. rewrite H1, H2.
  pose proof (collect_permutation yielded1 yielded2 Hperm Hnd ∅) as Hc.
  unfold collect in Hc. rewrite Hc. reflexivity.
Qed.

Lemma report_after_parallel_arrival_order_witness :
  _report_after_parallel manager_one_job
    [Item "b.py" results_two_lines; Item "a.py" []; DONE]
  = _report_after_parallel manager_one_job
      [Item "a.py" []; Item "b.py" results_two_lines; DONE].
Proof.
  apply (report_after_parallel_arrival_order manager_one_job _ _ [] []
           [("b.py"%string, results_two_lines); ("a.py"%string, [])]
           [("a.py"%string, []); ("b.py"%string, results_two_lines)]).
  - reflexivity.
  - reflexivity.
  - apply perm_swap.
  - repeat constructor; rewrite ?elem_of_cons, ?elem_of_nil;
      intuition discriminate.
Defined.

(** ** [Manager.make_checkers] and the workers *)

(** When every file can be read, [make_checkers] makes one checker for
    each file name, in the order of the names, each with its processor
    and with no results yet. *)
Theorem make_checkers_readable
    (pm : ProcessorModule) (b : Builtins) (filenames : list string)
    (checks : list Plugin) (options : style_guide.Options) :
  Forall (fun name => exists p, FileProcessor_new pm name options = ret p)
    filenames ->
  exists cs,
    make_checkers pm b filenames checks options = ret cs
    /\ map filename cs = filenames
    /\ Forall (fresh_checker pm checks options) cs.
Proof.
  induction 1 as [|name filenames [p Hp] _ (cs & Hcs & Hnames & Hfresh)].
  - exists []. repeat split. constructor.
  - exists (mkFileChecker name checks options [] (Some (Some p)) [] :: cs).
    split; [|split].
    + simpl. unfold __init__, _make_processor. simpl. rewrite Hp. simpl.
      rewrite Hcs. reflexivity.
    + simpl. rewrite Hnames. reflexivity.
    + constructor; [|exact Hfresh].
      repeat split. exists p. split; [reflexivity|exact Hp].
Qed.

Lemma make_checkers_readable_witness :
  exists cs,
    make_checkers processor_module_fine builtins_example
      ["a.py"%string; "b.py"%string] [plugin_example] (options_noqa false)
    = ret cs
    /\ map filename cs = ["a.py"%string; "b.py"%string]
    /\ Forall (fresh_checker processor_module_fine [plugin_example]
                 (options_noqa false)) cs.
Proof.
  apply (make_checkers_readable processor_module_fine builtins_example
           ["a.py"%string; "b.py"%string] [plugin_example] (options_noqa false)).
  repeat constructor; eexists; reflexivity.
Defined.

(** One file that cannot be read stops the enumeration: when the
    processor of one of the files cannot be made for an [IOError], the
    files before it being readable, [make_checkers] raises
    [AttributeError] and makes no checker at all, not for the readable
    files either. *)
Theorem make_checkers_unreadable
    (pm : ProcessorModule) (b : Builtins) (before after : list string)
    (name : string) (checks : list Plugin) (options : style_guide.Options)
    (e : exception) :
  Forall (fun name => exists p, FileProcessor_new pm name options = ret p)
    before ->
  FileProcessor_new pm name options = inl e ->
  issubclass (exc_type e) IOError = true ->
  raises (make_checkers pm b (before ++ name :: after) checks options)
    AttributeError.
Proof.
  intros Hbefore Hnew Hio.
  induction Hbefore as [|first before [p Hp] _ IH].
  - simpl. unfold __init__, _make_processor. simpl. rewrite Hnew, Hio.
    unfold mbind.
    destruct (report_without_processor
                (mkFileChecker name checks options [] None [])
                "E902" 0 0
                (class_name (exc_type e) +:+ ": " +:+ str_exception b e))
      as (e' & -> & Htype); [left; reflexivity|].
    simpl. exact Htype.
  - simpl. unfold __init__ at 1, _make_processor. simpl. rewrite Hp. simpl.
    destruct (make_checkers pm b (before ++ name :: after) checks options);
      [exact IH|destruct IH].
Qed.

Lemma make_checkers_unreadable_witness :
  raises (make_checkers processor_module_one_missing builtins_example
            (["a.py"%string] ++ "missing.py"%string :: ["b.py"%string])
            [] (options_noqa false))
    AttributeError.
Proof.
  apply (make_checkers_unreadable processor_module_one_missing builtins_example
           ["a.py"%string] ["b.py"%string] "missing.py" [] (options_noqa false)
           (Exception (Subclass "FileNotFoundError" IOError)
              [PInt 2; PStr "No such file or directory"])).
  - repeat constructor. eexists. reflexivity.
  - reflexivity.
  - reflexivity.
Defined.

Lemma run_checks_puts_at_most_one (b : Builtins) (process_tokens : M unit)
    (self self' : FileChecker) (put : list QueueItem) :
  run_checks b process_tokens true self = (inr put, self') ->
  (length put <= 1)%nat.
Proof.
  unfold run_checks, mbind, mret, ret. intros H.
  repeat case_match; simplify_eq; simpl; lia.
Qed.

(** What a worker puts on the results queue.  A worker that ends has put
    what [run_checks] puts for each checker it took, at most one item
    each, and then the sentinel, which is the last thing it puts.  A
    worker that does not end stops at the first checker for which
    [run_checks] raises, with that exception: on the queue is what
    [run_checks] put for the checkers before that one, and no
    sentinel. *)
Theorem worker_output
    (b : Builtins) (process_tokens : M unit) (taken : list FileChecker) :
  match _run_checks_from_queue b process_tokens taken with
  | (puts, inr _) =>
      Forall (fun checker => ~ check_raises b process_tokens checker) taken
      /\ puts = flat_map (puts_of b process_tokens) taken ++ [DONE]
      /\ count_done puts = 1
      /\ (length puts <= length taken + 1)%nat
  | (puts, inl e) =>
      exists before checker after self',
        taken = before ++ checker :: after
        /\ Forall (fun checker => ~ check_raises b process_tokens checker)
             before
        /\ run_checks b process_tokens true checker = (inl e, self')
        /\ puts = flat_map (puts_of b process_tokens) before
        /\ count_done puts = 0
        /\ (length puts <= length before)%nat
  end.
Proof.
  induction taken as [|checker taken IH].
  - simpl. split; [constructor|]. split; [reflexivity|].
    split; [reflexivity|]. simpl. lia.
  - cbn [_run_checks_from_queue].
    destruct (run_checks b process_tokens true checker) as [[e|put] self'] eqn:Hrun.
    + exists [], checker, taken, self'.
      split; [reflexivity|]. split; [constructor|]. split; [exact Hrun|].
      split; [reflexivity|]. split; [reflexivity|]. simpl. lia.
    + assert (Hok : ~ check_raises b process_tokens checker).
      { unfold check_raises. rewrite Hrun. intros [e He]. discriminate He. }
      assert (Hput : puts_of b process_tokens checker = put).
      { unfold puts_of. rewrite Hrun. reflexivity. }
      pose proof (run_checks_puts _ _ _ _ _ Hrun) as Hdone.
      pose proof (run_checks_puts_at_most_one _ _ _ _ _ Hrun) as Hone.
      destruct (_run_checks_from_queue b process_tokens taken) as [rest [e|[]]].
      * destruct IH as (before & c & after & s & Htaken & Hbefore & Hc & Hrest & Hd & Hl).
        exists (checker :: before), c, after, s.
        split; [rewrite Htaken; reflexivity|].
        split; [constructor; assumption|].
        split; [exact Hc|].
        cbn [flat_map length]. rewrite Hput, <- Hrest.
        split; [reflexivity|]. rewrite count_done_app, length_app, Hdone, Hd.
        split; [reflexivity|lia].
      * destruct IH as (Htaken & Hrest & Hd & Hl).
        split; [constructor; assumption|].
        cbn [flat_map length]. rewrite Hput, <- app_assoc, <- Hrest.
        split; [reflexivity|]. rewrite count_done_app, length_app, Hdone, Hd.
        split; [reflexivity|lia].
Qed.

(** A worker puts at most one sentinel, whether it ends or not. *)
Lemma worker_puts_at_most_one_sentinel (b : Builtins) (process_tokens : M unit)
    (taken : list FileChecker) :
  count_done (_run_checks_from_queue b process_tokens taken).1 <= 1.
Proof.
  induction taken as [|checker taken IH]; cbn [_run_checks_from_queue].
  - simpl. lia.
  - destruct (run_checks b process_tokens true checker) as [[e|put] self'] eqn:Hrun;
      [simpl; lia|].
    destruct (_run_checks_from_queue b process_tokens taken) as [rest outcome].
    cbn [fst] in *.
    rewrite count_done_app, (run_checks_puts _ _ _ _ _ Hrun). lia.
Qed.

(** The reporter of a parallel run waits for ever, however its workers
    end.  [run_parallel] starts [jobs - 1] workers; a worker that ends
    puts one sentinel and a worker in which a check raises puts none, so
    whatever the workers took from the process queue, and in whatever
    order their puts arrive, the reporter sees fewer than [jobs]
    sentinels: [_results] does not end and [_report_after_parallel]
    reports nothing. *)
Theorem reporter_waits_however_workers_end
    (self : Manager) (b : Builtins) (process_tokens : M unit)
    (taken : list (list FileChecker)) (queue : list QueueItem) :
  1 < jobs self ->
  length taken = run_parallel_workers self ->
  interleaving
    (map (fun t => (_run_checks_from_queue b process_tokens t).1) taken)
    queue ->
  count_done queue < jobs self
  /\ _results self queue = Blocked (items_of queue)
  /\ _report_after_parallel self queue = None.
Proof.
  intros Hjobs Hlen Hinter.
  assert (Hdone : count_done queue <= Z.of_nat (run_parallel_workers self)).
  { rewrite (interleaving_count_done _ _ Hinter), <- Hlen. clear.
    induction taken as [|t taken IH]; [reflexivity|].
    unfold total_done in *. cbn [map foldr length].
    pose proof (worker_puts_at_most_one_sentinel b process_tokens t). lia. }
  assert (Hlt : count_done queue < jobs self).
  { unfold run_parallel_workers in Hdone. lia. }
  assert (Hblocked : _results self queue = Blocked (items_of queue)).
  { apply results_from_blocked. lia. }
  split; [exact Hlt|]. split; [exact Hblocked|].
  unfold _report_after_parallel. rewrite Hblocked. reflexivity.
Qed.

Lemma reporter_waits_however_workers_end_witness :
  count_done [Item "a.py" results_two_lines] < jobs manager_two_jobs
  /\ _results manager_two_jobs [Item "a.py" results_two_lines]
     = Blocked (items_of [Item "a.py" results_two_lines])
  /\ _report_after_parallel manager_two_jobs [Item "a.py" results_two_lines]
     = None.
Proof.
  apply (reporter_waits_however_workers_end manager_two_jobs builtins_example
           (tokens_crash_on "b.py")
           [[checker_with "a.py" results_two_lines; checker_with "b.py" []]]).
  - reflexivity.
  - reflexivity.
  - change (interleaving [[Item "a.py" results_two_lines]]
              [Item "a.py" results_two_lines]).
    apply (interleaving_step [] []). apply interleaving_done.
    repeat constructor.
Defined.

(** ** [run_logical_checks] and [run_physical_checks] *)

Lemma only_raises_mret {A} allowed (a : A) : only_raises allowed (mret a).
Proof. intros self e self'. discriminate. Qed.

Lemma only_raises_mbind {A B} allowed (m : M A) (k : A -> M B) :
  only_raises allowed m -> (forall a, only_raises allowed (k a)) ->
  only_raises allowed (mbind m k).
Proof.
  intros Hm Hk self e self'. unfold mbind.
  destruct (m self) as [[e0|a] self1] eqn:Hrun.
  - intros [= <- <-]. eapply Hm. exact Hrun.
  - apply Hk.
Qed.

Lemma only_raises_for_each {A} allowed (l : list A) (body : A -> M unit) :
  (forall x, only_raises allowed (body x)) ->
  only_raises allowed (for_each l body).
Proof.
  intros Hbody. induction l as [|x l IH]; simpl.
  - apply only_raises_mret.
  - apply only_raises_mbind; [apply Hbody|]. intros _. exact IH.
Qed.

Lemma only_raises_get_processor : only_raises attribute_or_value get_processor.
Proof.
  intros self e self'. unfold get_processor.
  destruct (processor self) as [[p|]|]; intros [= <- <-]; left; reflexivity.
Qed.

Lemma only_raises_report (error_code : option string) (line column : Z)
    (text : string) :
  only_raises attribute_or_value (report error_code line column text).
Proof.
  unfold report. apply only_raises_mbind.
  - intros self e self'. unfold lift.
    destruct error_code; [discriminate|].
    destruct (split_space text) as [[c t]|]; [discriminate|].
    intros [= <- <-]. right. reflexivity.
  - intros [c t]. apply only_raises_mbind; [apply only_raises_get_processor|].
    intros p self e self'. discriminate.
Qed.

(** The guard on the mapping is enough: whatever the plugins report,
    [run_logical_checks] never raises the [UnboundLocalError] of
    [find_offset].  It raises only for a checker without a processor
    ([AttributeError]) or a text without a code ([ValueError]). *)
Theorem run_logical_checks_exceptions
    (built : list string * string * list MappingEntry)
    (plugins : list LogicalPlugin)
    (self self' : FileChecker) (e : exception) :
  run_logical_checks built plugins self = (inl e, self') ->
  exc_type e = AttributeError \/ exc_type e = ValueError.
Proof.
  revert self e self'.
  change (only_raises attribute_or_value (run_logical_checks built plugins)).
  unfold run_logical_checks.
  apply only_raises_mbind; [apply only_raises_get_processor|]. intros _.
  destruct built as [[comments logical_line] mapping].
  destruct mapping as [|entry mapping]; [apply only_raises_mret|].
  apply only_raises_for_each. intros plugin.
  apply only_raises_mbind; [intros s e s'; discriminate|]. intros _.
  apply only_raises_for_each. intros [offset text].
  apply only_raises_mbind.
  - intros s e s'. unfold lift.
    destruct offset as [line column|offset]; [discriminate|].
    destruct (find_offset_nonempty offset (entry :: mapping))
      as (t & l & c & _ & ->); [discriminate|]. discriminate.
  - intros [line_number column_offset].
    apply only_raises_mbind; [apply only_raises_report|].
    intros _. apply only_raises_mret.
Qed.

Lemma run_logical_checks_exceptions_witness :
  exc_type (Exception ValueError [PStr "not enough values to unpack"]) = AttributeError
  \/ exc_type (Exception ValueError [PStr "not enough values to unpack"]) = ValueError.
Proof.
  apply (run_logical_checks_exceptions ([], "x = 1"%string, [(0, (1, 0))])
           [plugin_no_code] checker_two_plugins
           (log_executed checker_two_plugins "W6")).
  reflexivity.
Defined.

Lemma find_offset_returns (offset : Offset) (mapping : list MappingEntry) :
  mapping <> [] -> exists pos, find_offset offset mapping = ret pos.
Proof.
  intros Hne. destruct offset as [line column|offset]; [eexists; reflexivity|].
  destruct (find_offset_nonempty offset mapping Hne) as (t & l & c & _ & ->).
  eexists. reflexivity.
Qed.

Lemma run_logical_plugin_results (self : FileChecker) (p : FileProcessor)
    (mapping : list MappingEntry) (reports : list (Offset * string)) :
  processor self = Some (Some p) -> mapping <> [] ->
  Forall (fun r => has_space r.2 = true) reports ->
  for_each reports
    (fun '(offset, text) =>
       mbind (lift (find_offset offset mapping))
         (fun offset =>
            let '(line_number, column_offset) := offset in
            mbind (report None line_number column_offset text)
              (fun _ => mret tt))) self
  = (ret tt,
     set_results self (results self ++ map (logical_entry p mapping) reports)).
Proof.
  intros Hp Hne. revert self Hp.
  induction reports as [|[offset text] reports IH]; intros self Hp Hall.
  - simpl. unfold mret. rewrite app_nil_r. destruct self; reflexivity.
  - inversion Hall as [|? ? Hr Hall']; subst. simpl in Hr.
    cbn [for_each].
    destruct (find_offset_returns offset mapping Hne) as [[line column] Hfo].
    erewrite mbind_ret;
      [|erewrite mbind_ret; [|unfold lift; rewrite Hfo; reflexivity];
        apply (report_yielded self p (line, column, text) Hp Hr)].
    rewrite IH; [|exact Hp|exact Hall'].
    simpl. rewrite Hfo. rewrite <- app_assoc. reflexivity.
Qed.

(** What [run_logical_checks] records.  When no mapping was built it
    does nothing: no plugin is run.  Otherwise it runs every logical-line
    plugin once, in order, and adds one entry for each pair the plugins
    report, in the order of the reports, at the position [find_offset]
    resolves the pair's offset to. *)
Theorem run_logical_checks_results
    (comments : list string) (logical_line : string)
    (mapping : list MappingEntry) (plugins : list LogicalPlugin)
    (self : FileChecker) (p : FileProcessor) :
  processor self = Some (Some p) ->
  (forall plugin r, plugin ∈ plugins ->
                    r ∈ logical_execute plugin logical_line ->
                    has_space r.2 = true) ->
  (mapping = [] ->
   run_logical_checks (comments, logical_line, mapping) plugins self
   = (ret tt, self))
  /\ (mapping <> [] ->
      run_logical_checks (comments, logical_line, mapping) plugins self
      = (ret tt,
         mkFileChecker (filename self) (ast_plugins self) (checker.options self)
           (results self
            ++ flat_map
                 (fun plugin =>
                    map (logical_entry p mapping)
                      (logical_execute plugin logical_line))
                 plugins)
           (processor self)
           (executed self ++ map logical_name plugins))).
Proof.
  intros Hp Htexts. unfold run_logical_checks.
  erewrite mbind_ret; [|unfold get_processor; rewrite Hp; reflexivity].
  split.
  - intros ->. reflexivity.
  - intros Hne. destruct mapping as [|entry mapping]; [congruence|].
    clear Hne. revert self Hp.
    induction plugins as [|plugin plugins IH]; intros self Hp.
    + simpl. unfold mret. rewrite !app_nil_r. destruct self; reflexivity.
    + cbn [for_each].
      erewrite mbind_ret;
        [|erewrite mbind_ret; [|reflexivity];
          apply (run_logical_plugin_results
                   (log_executed self (logical_name plugin)) p
                   (entry :: mapping) (logical_execute plugin logical_line) Hp);
          [discriminate|]; apply Forall_forall; intros r Hr;
          apply (Htexts plugin r); [left|exact Hr]].
      rewrite IH; [| |exact Hp].
      * simpl. rewrite <- !app_assoc. reflexivity.
      * intros plugin' r Hin Hr. apply (Htexts plugin' r); [right; exact Hin|exact Hr].
Qed.

Lemma run_logical_checks_results_witness :
  run_logical_checks ([], "x=1"%string, [(0, (5, 4)); (3, (5, 7))])
    [plugin_logical] checker_two_plugins
  = (ret tt,
     mkFileChecker (filename checker_two_plugins) (ast_plugins checker_two_plugins)
       (checker.options checker_two_plugins)
       (results checker_two_plugins
        ++ flat_map
             (fun plugin =>
                map (logical_entry
                       (mkFileProcessor (fun _ => None) (ret (Tree 0)) false)
                       [(0, (5, 4)); (3, (5, 7))])
                  (logical_execute plugin "x=1"))
             [plugin_logical])
       (processor checker_two_plugins)
       (executed checker_two_plugins ++ map logical_name [plugin_logical])).
Proof.
  assert (Htexts : forall plugin r,
            plugin ∈ [plugin_logical] ->
            r ∈ logical_execute plugin "x=1" -> has_space r.2 = true).
  { intros plugin r Hplugin Hr.
    apply elem_of_cons in Hplugin as [->|Hplugin];
      [|apply elem_of_nil in Hplugin; contradiction].
    repeat (apply elem_of_cons in Hr as [->|Hr]); try reflexivity.
    apply elem_of_nil in Hr. contradiction. }
  apply (proj2 (run_logical_checks_results [] "x=1" [(0, (5, 4)); (3, (5, 7))]
                  [plugin_logical] checker_two_plugins
                  (mkFileProcessor (fun _ => None) (ret (Tree 0)) false)
                  eq_refl Htexts)).
  discriminate.
Defined.

(** What [run_physical_checks] records.  It runs every physical-line
    plugin once, in order, and adds at most one entry for each, at the
    processor's current line number and at the column the plugin gave. *)
Theorem run_physical_checks_results
    (line_number : Z) (plugins : list PhysicalPlugin) (physical_line : string)
    (self : FileChecker) (p : FileProcessor) :
  processor self = Some (Some p) ->
  (forall plugin column text,
     plugin ∈ plugins ->
     physical_execute plugin physical_line = Some (column, text) ->
     has_space text = true) ->
  run_physical_checks line_number plugins physical_line self
  = (ret tt,
     mkFileChecker (filename self) (ast_plugins self) (checker.options self)
       (results self
        ++ omap
             (fun plugin =>
                match physical_execute plugin physical_line with
                | Some (column, text) => Some (ast_entry p (line_number, column, text))
                | None => None
                end)
             plugins)
       (processor self)
       (executed self ++ map physical_name plugins)).
Proof.
  unfold run_physical_checks. revert self.
  induction plugins as [|plugin plugins IH]; intros self Hp Htexts.
  - simpl. unfold mret. rewrite !app_nil_r. destruct self; reflexivity.
  - cbn [for_each].
    destruct (physical_execute plugin physical_line) as [[column text]|] eqn:Hex.
    + erewrite mbind_ret;
        [|erewrite mbind_ret; [|unfold get_processor; rewrite Hp; reflexivity];
          erewrite mbind_ret; [|reflexivity];
          apply (report_yielded (log_executed self (physical_name plugin)) p
                   (line_number, column, text) Hp);
          apply (Htexts plugin column text); [left|exact Hex]].
      rewrite IH; [| exact Hp |].
      * simpl. rewrite Hex. simpl. rewrite <- !app_assoc. reflexivity.
      * intros plugin' c t Hin. apply Htexts. right. exact Hin.
    + erewrite mbind_ret;
        [|erewrite mbind_ret; [|unfold get_processor; rewrite Hp; reflexivity];
          erewrite mbind_ret; [|reflexivity]; reflexivity].
      rewrite IH; [| exact Hp |].
      * simpl. rewrite Hex. simpl. rewrite <- !app_assoc. reflexivity.
      * intros plugin' c t Hin. apply Htexts. right. exact Hin.
Qed.

Lemma run_physical_checks_results_witness :
  run_physical_checks 12 [plugin_too_long; plugin_tabs] "x = 1" checker_two_plugins
  = (ret tt,
     mkFileChecker (filename checker_two_plugins) (ast_plugins checker_two_plugins)
       (checker.options checker_two_plugins)
       (results checker_two_plugins
        ++ omap
             (fun plugin =>
                match physical_execute plugin "x = 1" with
                | Some (column, text) =>
                    Some (ast_entry
                            (mkFileProcessor (fun _ => None) (ret (Tree 0)) false)
                            (12, column, text))
                | None => None
                end)
             [plugin_too_long; plugin_tabs])
       (processor checker_two_plugins)
       (executed checker_two_plugins
        ++ map physical_name [plugin_too_long; plugin_tabs])).
Proof.
  assert (Htexts : forall plugin column text,
            plugin ∈ [plugin_too_long; plugin_tabs] ->
            physical_execute plugin "x = 1" = Some (column, text) ->
            has_space text = true).
  { intros plugin column text Hplugin.
    repeat (apply elem_of_cons in Hplugin as [->|Hplugin]);
      [discriminate|intros [= <- <-]; reflexivity|].
    apply elem_of_nil in Hplugin. contradiction. }
  exact (run_physical_checks_results 12 [plugin_too_long; plugin_tabs] "x = 1"
           checker_two_plugins
           (mkFileProcessor (fun _ => None) (ret (Tree 0)) false) eq_refl Htexts).
Defined.
